(** * simple_naptha_mcp: the tool server and its lifecycle manager

    A shallow embedding of [simple_naptha_mcp/server.py] (the tools served
    over MCP) and of [simple_naptha_mcp/run.py] (the thread that hosts the
    server, and the agent entry point), with the properties of the
    specification stated and settled against it. *)

From Stdlib Require Import ZArith Lia.
From stdpp Require Import base option list strings gmap pretty.

Open Scope Z_scope.

(** ** Python exceptions and results

    Only exceptions that are instances of Python's [Exception] are
    modelled; they are the ones an [except Exception] clause catches. *)

Inductive exn : Type :=
| ValueError (msg : string)
| HTTPStatusError (status_code : Z)
| TransportError (msg : string)
| ValidationError (msg : string)
| RuntimeError (msg : string).

Inductive result (A : Type) : Type :=
| Ok (a : A)
| Raise (e : exn).
Arguments Ok {A} a.
Arguments Raise {A} e.

(** * server.py *)

Module ServerPy.

(** [mcp.types.TextContent], the only content item the tools build. *)
Record TextContent : Type := mkTextContent {
  tc_type : string;
  text : string
}.

(** One entry of the ["properties"] of an input schema. *)
Record Property : Type := mkProperty {
  prop_type : string;
  prop_description : string
}.

(** The [inputSchema] dictionaries of [list_tools]. *)
Record InputSchema : Type := mkInputSchema {
  schema_type : string;
  required : list string;
  properties : list (string * Property)
}.

(** [mcp.types.Tool]. *)
Record Tool : Type := mkTool {
  name : string;
  description : string;
  inputSchema : InputSchema
}.

(** What [httpx.AsyncClient] is configured with in [fetch_website]. *)
Record AsyncClient : Type := mkAsyncClient {
  follow_redirects : bool;
  headers : list (string * string)
}.

(** A request as it leaves the client. *)
Record Request : Type := mkRequest {
  req_method : string;
  req_url : string;
  req_follow_redirects : bool;
  req_headers : list (string * string)
}.

(** The part of [httpx.Response] that [fetch_website] reads. *)
Record Response : Type := mkResponse {
  status_code : Z;
  response_text : string
}.

(** A handler runs against the network: it yields the requests it sent,
    in order, and its result or the exception it raised. *)
Definition Net (A : Type) : Type := (list Request * result A)%type.

Definition net_ret {A} (a : A) : Net A := ([], Ok a).
Definition net_raise {A} (e : exn) : Net A := ([], Raise e).
Definition net_bind {A B} (m : Net A) (k : A -> Net B) : Net B :=
  match m with
  | (sent, Ok a) => let '(sent', r) := k a in (sent ++ sent', r)
  | (sent, Raise e) => (sent, Raise e)
  end.

Notation "x <- m ;; k" := (net_bind m (fun x => k))
  (at level 100, m at next level, right associativity, only parsing).

(** [response.raise_for_status()]: httpx raises [HTTPStatusError] unless
    the status is a 2xx one. *)
Definition is_success (r : Response) : bool :=
  (200 <=? status_code r) && (status_code r <=? 299).

Definition raise_for_status (r : Response) : Net unit :=
  if is_success r then net_ret tt
  else net_raise (HTTPStatusError (status_code r)).

Definition user_agent : string :=
  "MCP Test Server (github.com/modelcontextprotocol/python-sdk)".

Section Handlers.

(** The network: what sending a request answers, a response or a
    transport failure. *)
Variable send : Request -> result Response.

(** [client.get(url)]. *)
Definition client_get (client : AsyncClient) (url : string) : Net Response :=
  let req := mkRequest "GET" url (follow_redirects client) (headers client) in
  ([req], send req).

Definition fetch_website (url : string) : Net (list TextContent) :=
  let headers := [("User-Agent", user_agent)] in
  let client := mkAsyncClient true headers in
  response <- client_get client url ;;
  _ <- raise_for_status response ;;
  net_ret [mkTextContent "text" (response_text response)].

Definition echo_message (message : string) : Net (list TextContent) :=
  net_ret [mkTextContent "text" message].

Definition say_hello (name : string) : Net (list TextContent) :=
  net_ret [mkTextContent "text" ("Hello, " +:+ name +:+ "!")].

(** The function registered with [@self.app.call_tool()].  [arguments]
    is the dictionary of the call; its values are strings, as the input
    schemas and the handlers' annotations have them. *)
Definition fetch_tool (name : string) (arguments : gmap string string)
  : Net (list TextContent) :=
  if decide (name = "fetch") then
    match arguments !! "url" with
    | None => net_raise (ValueError "Missing required argument 'url'")
    | Some url => fetch_website url
    end
  else if decide (name = "echo") then
    match arguments !! "message" with
    | None => net_raise (ValueError "Missing required argument 'message'")
    | Some message => echo_message message
    end
  else if decide (name = "hello") then
    let name_arg := default "World" (arguments !! "name") in
    say_hello name_arg
  else
    net_raise (ValueError ("Unknown tool: " +:+ name)).

End Handlers.

(** The function registered with [@self.app.list_tools()]. *)
Definition list_tools : list Tool :=
  [ mkTool "fetch" "Fetches a website and returns its content"
      (mkInputSchema "object" ["url"]
         [("url", mkProperty "string" "URL to fetch")]);
    mkTool "echo" "Returns the provided message"
      (mkInputSchema "object" ["message"]
         [("message", mkProperty "string" "Message to echo back")]);
    mkTool "hello" "Returns a greeting message"
      (mkInputSchema "object" []
         [("name", mkProperty "string" "Name to greet (defaults to 'World')")]) ].

(** ** The specification's vocabulary, read on the code *)

(** The names under which a tool is registered. *)
Definition tool_names : list string := name <$> list_tools.

(** The descriptor registered under a name, the first one in
    registration order. *)
Definition descriptor (n : string) : option Tool :=
  head (filter (fun t => name t = n) list_tools).

(** The specification's typed errors are [ValueError]s and httpx's status
    error in the code; they are told apart by their message. *)
Definition UnknownTool (n : string) : exn :=
  ValueError ("Unknown tool: " +:+ n).
Definition MissingArgument (field : string) : exn :=
  ValueError ("Missing required argument '" +:+ field +:+ "'").
Definition FetchError (status : Z) : exn := HTTPStatusError status.

(** The request the specification describes for [fetch]: a GET of the
    url that follows redirects and carries the fixed client header. *)
Definition fetch_request (url : string) : Request :=
  mkRequest "GET" url true [("User-Agent", user_agent)].

(** A result that is a single text content item holding [s]. *)
Definition single_text (s : string) : list TextContent :=
  [mkTextContent "text" s].

(** A network that answers every request with the same response. *)
Definition answers (status : Z) (body : string) : Request -> result Response :=
  fun _ => Ok (mkResponse status body).

End ServerPy.

(** * run.py *)

Module RunPy.

(** [uvicorn.Config], with the arguments [run_server] passes. *)
Record Config : Type := mkConfig {
  host : string;
  port : Z;
  log_level : string
}.

(** [uvicorn.Server]: its configuration and the flag its serving loop
    polls. *)
Record UvicornServer : Type := mkUvicornServer {
  config : Config;
  should_exit : bool
}.

(** A [threading.Thread] is created, then started and alive, then
    finished. *)
Inductive thread_state : Type := Created | Alive | Finished.

Global Instance thread_state_eq_dec : EqDecision thread_state.
Proof. solve_decision. Defined.

(** A thread object whose target is [run_server] closed over [port].
    [local_server_instance] is the variable [server_instance] of
    [run_server]: that function has no [global] statement, so its
    assignment binds a local of its own. *)
Record Thread : Type := mkThread {
  target_port : Z;
  daemon : bool;
  state : thread_state;
  local_server_instance : option nat
}.

(** The effects the control thread and the server thread leave behind. *)
Inductive event : Type :=
| Log (level msg : string)
| ThreadStart (tid : nat)
| Sleep (seconds : Z)
| Join (tid : nat) (timeout : Z).

(** The process: the module globals [server_instance] and
    [server_thread] (handles into the two heaps, [None] for Python's
    [None]), the thread and server objects, and the effects so far. *)
Record World : Type := mkWorld {
  server_instance : option nat;
  server_thread : option nat;
  threads : list Thread;
  servers : list UvicornServer;
  trace : list event
}.

(** The module as it is after import. *)
Definition initial : World := mkWorld None None [] [] [].

(** What the code does not decide: whether the operating system starts
    a thread, whether the listener of a thread binds its port, and
    whether a server that was told to exit is gone before a join gives
    up. *)
Record Env : Type := mkEnv {
  can_start : nat -> bool;
  bind_ok : nat -> Z -> bool;
  exits_in_time : nat -> bool
}.

(** Modelled from the spec: [simple_naptha_mcp/schemas.py] is not among
    the sources; the specification gives the inputs of an invocation as
    [{port: integer}]. *)
Record InputSchema : Type := mkInputSchema {
  inputs_port : Z
}.

Definition str_InputSchema (i : InputSchema) : string :=
  "port=" +:+ pretty (inputs_port i).

(** The dictionary [run] returns. *)
Record RunResult : Type := mkRunResult {
  status : string;
  message : string
}.

Definition str_exn (e : exn) : string :=
  match e with
  | ValueError m | TransportError m | ValidationError m | RuntimeError m => m
  | HTTPStatusError c => "HTTP status " +:+ pretty c
  end.

(** Code that reads and writes the process and may raise. *)
Definition M (A : Type) : Type := World -> result A * World.

Definition ret {A} (a : A) : M A := fun w => (Ok a, w).
Definition raise {A} (e : exn) : M A := fun w => (Raise e, w).
Definition bind {A B} (m : M A) (k : A -> M B) : M B :=
  fun w => match m w with
           | (Ok a, w') => k a w'
           | (Raise e, w') => (Raise e, w')
           end.
Definition get : M World := fun w => (Ok w, w).
Definition modify (f : World -> World) : M unit := fun w => (Ok tt, f w).
Definition lift {A} (r : result A) : M A := fun w => (r, w).

Notation "x <- m ;; k" := (bind m (fun x => k))
  (at level 100, m at next level, right associativity, only parsing).
Notation "m ;;; k" := (bind m (fun _ => k))
  (at level 100, right associativity, only parsing).

(** Field updates. *)
Definition set_server_thread (t : option nat) (w : World) : World :=
  mkWorld (server_instance w) t (threads w) (servers w) (trace w).
Definition set_threads (ts : list Thread) (w : World) : World :=
  mkWorld (server_instance w) (server_thread w) ts (servers w) (trace w).
Definition set_servers (ss : list UvicornServer) (w : World) : World :=
  mkWorld (server_instance w) (server_thread w) (threads w) ss (trace w).
Definition emit (e : event) (w : World) : World :=
  mkWorld (server_instance w) (server_thread w) (threads w) (servers w)
    (trace w ++ [e]).

Definition set_state (s : thread_state) (t : Thread) : Thread :=
  mkThread (target_port t) (daemon t) s (local_server_instance t).
Definition set_daemon (d : bool) (t : Thread) : Thread :=
  mkThread (target_port t) d (state t) (local_server_instance t).
Definition set_local_server_instance (i : option nat) (t : Thread) : Thread :=
  mkThread (target_port t) (daemon t) (state t) i.
Definition set_should_exit (b : bool) (s : UvicornServer) : UvicornServer :=
  mkUvicornServer (config s) b.

(** Update of the object behind a handle. *)
Definition update_thread (tid : nat) (f : Thread -> Thread) (w : World) : World :=
  set_threads (alter f tid (threads w)) w.
Definition update_server (sid : nat) (f : UvicornServer -> UvicornServer)
    (w : World) : World :=
  set_servers (alter f sid (servers w)) w.

(** [logger.info] and [logger.error]. *)
Definition logger_info (msg : string) : M unit := modify (emit (Log "info" msg)).
Definition logger_error (msg : string) : M unit := modify (emit (Log "error" msg)).

(** [thread.is_alive()]. *)
Definition is_alive (tid : nat) (w : World) : bool :=
  match threads w !! tid with
  | Some t => bool_decide (state t = Alive)
  | None => false
  end.

(** The condition [server_thread and server_thread.is_alive()], under
    which [run] takes the server to be running and [stop_server] joins. *)
Definition is_running (w : World) : bool :=
  match server_thread w with
  | Some tid => is_alive tid w
  | None => false
  end.

Section Process.

Variable env : Env.

(** The body of the server thread, up to the point where it serves or
    its listener failed to bind and the thread ends.  The control
    thread observes nothing of it before its one-second sleep is over,
    so it is run as one step when the thread starts. *)
Definition run_server (tid : nat) (port : Z) (w : World) : World :=
  let w := emit (Log "info" ("Starting MCP server on port " +:+ pretty port)) w in
  let config := mkConfig "0.0.0.0" port "info" in
  let sid := length (servers w) in
  let w := set_servers (servers w ++ [mkUvicornServer config false]) w in
  let w := update_thread tid (set_local_server_instance (Some sid)) w in
  if bind_ok env tid port then w
  else update_thread tid (set_state Finished) w.

(** [threading.Thread(target=run_server)]: a new thread object. *)
Definition Thread_new (port : Z) : M nat := fun w =>
  let tid := length (threads w) in
  (Ok tid, set_threads (threads w ++ [mkThread port false Created None]) w).

(** [thread.start()]. *)
Definition Thread_start (tid : nat) : M unit := fun w =>
  if can_start env tid then
    let w := emit (ThreadStart tid) w in
    let w := update_thread tid (set_state Alive) w in
    let port := default 0 (target_port <$> threads w !! tid) in
    (Ok tt, run_server tid port w)
  else (Raise (RuntimeError "can't start new thread"), w).

(** [thread.join(timeout)]: the thread ends within the timeout when
    its server was told to exit and leaves in time. *)
Definition told_to_exit (tid : nat) (w : World) : bool :=
  match threads w !! tid with
  | Some t =>
      match local_server_instance t with
      | Some sid => default false (should_exit <$> servers w !! sid)
      | None => false
      end
  | None => false
  end.

Definition Thread_join (tid : nat) (timeout : Z) : M unit := fun w =>
  let w := emit (Join tid timeout) w in
  if is_alive tid w && told_to_exit tid w && exits_in_time env tid
  then (Ok tt, update_thread tid (set_state Finished) w)
  else (Ok tt, w).

(** [time.sleep]. *)
Definition time_sleep (seconds : Z) : M unit := modify (emit (Sleep seconds)).

Definition start_server (port : Z) : M bool :=
  tid <- Thread_new port ;;
  modify (set_server_thread (Some tid)) ;;;
  modify (update_thread tid (set_daemon false)) ;;;
  Thread_start tid ;;;
  logger_info ("Server thread started, available at http://localhost:"
               +:+ pretty port +:+ "/sse") ;;;
  time_sleep 1 ;;;
  ret true.

Definition stop_server : M unit :=
  w <- get ;;
  match server_instance w with
  | Some sid =>
      modify (update_server sid (set_should_exit true)) ;;;
      logger_info "Server shutdown initiated"
  | None => ret tt
  end ;;;
  w <- get ;;
  match server_thread w with
  | Some tid =>
      if is_alive tid w then
        Thread_join tid 5 ;;;
        logger_info "Server thread stopped"
      else ret tt
  | None => ret tt
  end.

Section Run.

(** The two validations that open [run]: the SDK's [AgentRunInput] of
    the dictionary [module_run], then [InputSchema] of its inputs. *)
Variables ModuleRun RawInputs : Type.
Variable AgentRunInput : ModuleRun -> result RawInputs.
Variable InputSchema_new : RawInputs -> result InputSchema.

(** The [try] block of [run]. *)
Definition run_try (module_run : ModuleRun) : M RunResult :=
  raw <- lift (AgentRunInput module_run) ;;
  inputs <- lift (InputSchema_new raw) ;;
  logger_info ("Received input: " +:+ str_InputSchema inputs) ;;;
  let port := inputs_port inputs in
  w <- get ;;
  if negb (is_running w) then
    success <- start_server port ;;
    if success : bool then
      logger_info "MCP server started for this run" ;;;
      ret (mkRunResult "success"
             ("MCP server started for this run on port " +:+ pretty port))
    else
      ret (mkRunResult "error"
             ("Failed to start MCP server on port " +:+ pretty port))
  else
    ret (mkRunResult "success"
           ("MCP server started for this run on port " +:+ pretty port)).

(** [run]: the [try] block, and the handler that logs, stops the
    server and raises the exception again. *)
Definition run (module_run : ModuleRun) : M RunResult := fun w =>
  match run_try module_run w with
  | (Ok r, w') => (Ok r, w')
  | (Raise e, w') =>
      match (logger_error ("Error in run function: " +:+ str_exn e) ;;;
             stop_server) w' with
      | (Ok _, w'') => (Raise e, w'')
      | (Raise e', w'') => (Raise e', w'')
      end
  end.

End Run.

End Process.

(** ** Concrete environments and invocations *)

(** Every thread starts, every listener binds, and a server that is
    told to exit is gone in time. *)
Definition env_ok : Env :=
  mkEnv (fun _ => true) (fun _ _ => true) (fun _ => true).

(** No listener binds: the ports are taken. *)
Definition env_port_taken : Env :=
  mkEnv (fun _ => true) (fun _ _ => false) (fun _ => true).

(** Only the listener of the first thread binds. *)
Definition env_first_binds : Env :=
  mkEnv (fun _ => true) (fun tid _ => bool_decide (tid = 0%nat)) (fun _ => true).

(** A server that is told to exit is still there when the join gives up. *)
Definition env_slow_exit : Env :=
  mkEnv (fun _ => true) (fun _ _ => true) (fun _ => false).

(** The operating system refuses every new thread. *)
Definition env_no_thread : Env :=
  mkEnv (fun _ => false) (fun _ _ => true) (fun _ => true).

(** An invocation reduced to the port of its inputs, if it has one: the
    first validation always passes, the second asks for the port. *)
Definition demo_AgentRunInput (module_run : option Z) : result (option Z) :=
  Ok module_run.
Definition demo_InputSchema (inputs : option Z) : result InputSchema :=
  match inputs with
  | Some p => Ok (mkInputSchema p)
  | None => Raise (ValidationError "port: field required")
  end.

(** ** The states of the module, and what the rest of the file handles *)

Section Reach.

Variable env : Env.
Variables ModuleRun RawInputs : Type.
Variable AgentRunInput : ModuleRun -> result RawInputs.
Variable InputSchema_new : RawInputs -> result InputSchema.

(** The worlds the module gets into from its import by calls of its
    functions [start_server], [stop_server] and [run], whatever they
    return or raise. *)
Inductive reachable : World -> Prop :=
| reach_initial : reachable initial
| reach_start_server (p : Z) (w : World) :
    reachable w -> reachable (start_server env p w).2
| reach_stop_server (w : World) :
    reachable w -> reachable (stop_server env w).2
| reach_run (d : ModuleRun) (w : World) :
    reachable w ->
    reachable (run env ModuleRun RawInputs AgentRunInput InputSchema_new d w).2.

End Reach.

(** A world that comes from another by steps of the control thread: an
    event, a call of [start_server], a call of [stop_server]. *)
Inductive evolves (env : Env) : World -> World -> Prop :=
| evolves_refl (w : World) : evolves env w w
| evolves_emit (e : event) (w w' : World) :
    evolves env w w' -> evolves env w (emit e w')
| evolves_start_server (p : Z) (w w' : World) :
    evolves env w w' -> evolves env w (start_server env p w').2
| evolves_stop_server (w w' : World) :
    evolves env w w' -> evolves env w (stop_server env w').2.

(** No server object was told to exit, and the global [server_instance]
    is [None]. *)
Definition exit_flag_unset (w : World) : Prop :=
  server_instance w = None
  ∧ Forall (fun s => should_exit s = false) (servers w).

(** Only the thread the global [server_thread] names is alive, if any. *)
Definition single_instance (w : World) : Prop :=
  forall tid, is_alive tid w = true -> server_thread w = Some tid.

(** The module global [keep_running] and the lines printed, beside the
    world of the server. *)
Record Main : Type := mkMain {
  world : World;
  keep_running : bool;
  stdout : list string
}.

(** The module as it is after import, with [keep_running = True]. *)
Definition initial_main : Main := mkMain initial true [].

(** How [signal_handler] ends: by [sys.exit], or by an exception that
    [stop_server] raised. *)
Inductive ending : Type :=
| SystemExit (code : Z)
| Propagates (e : exn).

(** The line feed that opens the message of [signal_handler]. *)
Definition newline : Ascii.ascii := Ascii.ascii_of_nat 10.

Definition print (line : string) (m : Main) : Main :=
  mkMain (world m) (keep_running m) (stdout m ++ [line]).

(** [signal_handler(sig, frame)]; neither argument is read. *)
Definition signal_handler (env : Env) (m : Main) : ending * Main :=
  let m := print (String newline "Shutting down server...") m in
  let m := mkMain (world m) false (stdout m) in
  match stop_server env (world m) with
  | (Ok _, w) => (SystemExit 0, mkMain w (keep_running m) (stdout m))
  | (Raise e, w) => (Propagates e, mkMain w (keep_running m) (stdout m))
  end.

(** ** The control thread under an interrupt

    [KeyboardInterrupt] is not an instance of [Exception]: it is what
    Python raises in the main thread when SIGINT arrives and no handler
    of the program's own is installed, as when [run] is imported and
    called by another program.  The one place where [run] blocks is the
    sleep of [start_server]; the interrupt is taken to arrive there. *)

Inductive outcome (A : Type) : Type :=
| Returned (a : A)
| Raised (e : exn)
| KeyboardInterrupt.
Arguments Returned {A} a.
Arguments Raised {A} e.
Arguments KeyboardInterrupt {A}.

Definition of_result {A} (r : result A) : outcome A :=
  match r with
  | Ok a => Returned a
  | Raise e => Raised e
  end.

(** Code that reads and writes the process and may raise or be
    interrupted. *)
Definition S (A : Type) : Type := World -> outcome A * World.

Definition sig_ret {A} (a : A) : S A := fun w => (Returned a, w).
Definition sig_bind {A B} (m : S A) (k : A -> S B) : S B :=
  fun w => match m w with
           | (Returned a, w') => k a w'
           | (Raised e, w') => (Raised e, w')
           | (KeyboardInterrupt, w') => (KeyboardInterrupt, w')
           end.
Definition sig_lift {A} (m : M A) : S A :=
  fun w => let '(r, w') := m w in (of_result r, w').

Notation "x <~ m ;; k" := (sig_bind m (fun x => k))
  (at level 100, m at next level, right associativity, only parsing).
Notation "m ;;~ k" := (sig_bind m (fun _ => k))
  (at level 100, right associativity, only parsing).

Section Signals.

Variable env : Env.

(** Whether SIGINT reaches the control thread while it sleeps after the
    start of the thread [tid]. *)
Variable interrupted : nat -> bool.

(** [time.sleep], cut short by the interrupt. *)
Definition time_sleep_sig (tid : nat) (seconds : Z) : S unit := fun w =>
  let w := emit (Sleep seconds) w in
  if interrupted tid then (KeyboardInterrupt, w) else (Returned tt, w).

Definition start_server_sig (port : Z) : S bool :=
  tid <~ sig_lift (Thread_new port) ;;
  sig_lift (modify (set_server_thread (Some tid))) ;;~
  sig_lift (modify (update_thread tid (set_daemon false))) ;;~
  sig_lift (Thread_start env tid) ;;~
  sig_lift (logger_info ("Server thread started, available at http://localhost:"
                         +:+ pretty port +:+ "/sse")) ;;~
  time_sleep_sig tid 1 ;;~
  sig_ret true.

Section RunSignals.

Variables ModuleRun RawInputs : Type.
Variable AgentRunInput : ModuleRun -> result RawInputs.
Variable InputSchema_new : RawInputs -> result InputSchema.

(** The [try] block of [run]. *)
Definition run_try_sig (module_run : ModuleRun) : S RunResult :=
  raw <~ sig_lift (lift (AgentRunInput module_run)) ;;
  inputs <~ sig_lift (lift (InputSchema_new raw)) ;;
  sig_lift (logger_info ("Received input: " +:+ str_InputSchema inputs)) ;;~
  let port := inputs_port inputs in
  w <~ sig_lift get ;;
  if negb (is_running w) then
    success <~ start_server_sig port ;;
    if success : bool then
      sig_lift (logger_info "MCP server started for this run") ;;~
      sig_ret (mkRunResult "success"
                 ("MCP server started for this run on port " +:+ pretty port))
    else
      sig_ret (mkRunResult "error"
                 ("Failed to start MCP server on port " +:+ pretty port))
  else
    sig_ret (mkRunResult "success"
               ("MCP server started for this run on port " +:+ pretty port)).

(** [run]: the clause [except Exception] handles what is an
    [Exception]; the interrupt passes it by. *)
Definition run_sig (module_run : ModuleRun) : S RunResult := fun w =>
  match run_try_sig module_run w with
  | (Returned r, w') => (Returned r, w')
  | (Raised e, w') =>
      match (logger_error ("Error in run function: " +:+ str_exn e) ;;;
             stop_server env) w' with
      | (Ok _, w'') => (Raised e, w'')
      | (Raise e', w'') => (Raised e', w'')
      end
  | (KeyboardInterrupt, w') => (KeyboardInterrupt, w')
  end.

End RunSignals.

End Signals.

End RunPy.

(** * Properties of the tool registry (server.py) *)

Section ToolProperties.

Import ServerPy.

Variable send : Request -> result Response.

Lemma fetch_tool_fetch (arguments : gmap string string) :
  fetch_tool send "fetch" arguments =
  match arguments !! "url" with
  | None => net_raise (MissingArgument "url")
  | Some url => fetch_website send url
  end.
Proof. reflexivity. Qed.

Lemma fetch_tool_echo (arguments : gmap string string) :
  fetch_tool send "echo" arguments =
  match arguments !! "message" with
  | None => net_raise (MissingArgument "message")
  | Some message => echo_message message
  end.
Proof. reflexivity. Qed.

Lemma fetch_tool_hello (arguments : gmap string string) :
  fetch_tool send "hello" arguments =
  say_hello (default "World" (arguments !! "name")).
Proof. reflexivity. Qed.

Lemma fetch_tool_unknown (n : string) (arguments : gmap string string) :
  n ∉ tool_names ->
  fetch_tool send n arguments = net_raise (UnknownTool n).
Proof.
  intros Hn. unfold fetch_tool.
  repeat case_decide; subst; try reflexivity;
    exfalso; apply Hn; apply list_elem_of_In; cbn; tauto.
Qed.

Lemma tool_names_cases (n : string) :
  n ∈ tool_names -> n = "fetch" ∨ n = "echo" ∨ n = "hello".
Proof. intros H%list_elem_of_In. cbn in H. intuition auto. Qed.

Lemma fetch_website_sends (url : string) :
  (fetch_website send url).1 = [fetch_request url].
Proof.
  unfold fetch_website, client_get, net_bind, raise_for_status; cbn.
  destruct (send _) as [r|e]; cbn; [|reflexivity].
  destruct (is_success r); reflexivity.
Qed.

Lemma fetch_website_result (url : string) :
  (fetch_website send url).2 =
  match send (fetch_request url) with
  | Ok r => if is_success r then Ok (single_text (response_text r))
            else Raise (FetchError (status_code r))
  | Raise e => Raise e
  end.
Proof.
  unfold fetch_website, client_get, net_bind, raise_for_status, fetch_request; cbn.
  destruct (send _) as [r|e]; cbn; [|reflexivity].
  destruct (is_success r); reflexivity.
Qed.

(** C9. [list_tools] returns the registered descriptors in registration
    order: the three named ["fetch"], ["echo"], ["hello"], in that
    order, and for every registered name exactly one descriptor
    carries it. *)
Theorem list_tools_registration_order :
  name <$> list_tools = ["fetch"; "echo"; "hello"]
  ∧ length list_tools = 3%nat
  ∧ NoDup tool_names
  ∧ Forall (fun n => length (filter (fun t => name t = n) list_tools) = 1%nat)
      tool_names.
Proof.
  split; [reflexivity|]. split; [reflexivity|]. split.
  - apply (bool_decide_unpack _). vm_compute. exact I.
  - unfold tool_names; cbn. repeat constructor.
Qed.

(** C7. Invoking ["hello"] returns ["Hello, {name}!"] as a single text
    content item, where the name is the argument ["name"] when it is
    present and ["World"] when it is omitted; so the empty arguments
    give ["Hello, World!"] and the name ["Ada"] gives ["Hello, Ada!"]. *)
Theorem invoke_hello (arguments : gmap string string) :
  (forall n, arguments !! "name" = Some n ->
     fetch_tool send "hello" arguments
     = ([], Ok (single_text ("Hello, " +:+ n +:+ "!"))))
  ∧ (arguments !! "name" = None ->
     fetch_tool send "hello" arguments = ([], Ok (single_text "Hello, World!")))
  ∧ fetch_tool send "hello" ∅ = ([], Ok (single_text "Hello, World!"))
  ∧ fetch_tool send "hello" {[ "name" := "Ada" ]}
    = ([], Ok (single_text "Hello, Ada!")).
Proof.
  rewrite !fetch_tool_hello. repeat split.
  - intros n ->. reflexivity.
  - intros ->. reflexivity.
Qed.

(** C8. Invoking ["echo"] with the message [m] returns [m] itself,
    unchanged, as a single text content item, whatever else the
    arguments hold. *)
Theorem invoke_echo_verbatim (m : string) (arguments : gmap string string) :
  arguments !! "message" = Some m ->
  fetch_tool send "echo" arguments = ([], Ok (single_text m))
  ∧ fetch_tool send "echo" {[ "message" := m ]} = ([], Ok (single_text m))
  ∧ text <$> single_text m = [m].
Proof.
  intros Hm. rewrite !fetch_tool_echo, Hm, lookup_singleton_eq.
  repeat split.
Qed.

Lemma descriptor_cases (n : string) (t : Tool) :
  descriptor n = Some t ->
  (n = "fetch" ∧ required (inputSchema t) = ["url"])
  ∨ (n = "echo" ∧ required (inputSchema t) = ["message"])
  ∨ (n = "hello" ∧ required (inputSchema t) = []).
Proof.
  unfold descriptor, list_tools. rewrite !filter_cons, filter_nil. cbn.
  repeat case_decide; subst; cbn; intros [= <-]; cbn; auto.
Qed.

(** C5. Invoking a name that is not a registered tool fails with
    [UnknownTool]; invoking a registered tool without a field that its
    input schema lists as required fails with [MissingArgument] of
    that field (so ["echo"] and ["fetch"] on empty arguments fail on
    ["message"] and on ["url"]); otherwise the call is the call of the
    tool's handler on the arguments. *)
Theorem invoke_checks_arguments (n : string) (arguments : gmap string string) :
  (n ∉ tool_names ->
     fetch_tool send n arguments = ([], Raise (UnknownTool n)))
  ∧ (forall t field,
       descriptor n = Some t -> field ∈ required (inputSchema t) ->
       arguments !! field = None ->
       fetch_tool send n arguments = ([], Raise (MissingArgument field)))
  ∧ fetch_tool send "echo" ∅ = ([], Raise (MissingArgument "message"))
  ∧ fetch_tool send "fetch" ∅ = ([], Raise (MissingArgument "url"))
  ∧ (forall url, arguments !! "url" = Some url ->
       fetch_tool send "fetch" arguments = fetch_website send url)
  ∧ (forall m, arguments !! "message" = Some m ->
       fetch_tool send "echo" arguments = echo_message m)
  ∧ fetch_tool send "hello" arguments
    = say_hello (default "World" (arguments !! "name")).
Proof.
  split; [apply fetch_tool_unknown|].
  split.
  { intros t field Ht Hf Hnone.
    destruct (descriptor_cases _ _ Ht) as [[-> Hr]|[[-> Hr]|[-> Hr]]];
      rewrite Hr in Hf.
    - apply list_elem_of_singleton in Hf as ->.
      rewrite fetch_tool_fetch, Hnone. reflexivity.
    - apply list_elem_of_singleton in Hf as ->.
      rewrite fetch_tool_echo, Hnone. reflexivity.
    - inversion Hf. }
  split; [reflexivity|]. split; [reflexivity|].
  split; [intros url Hu; rewrite fetch_tool_fetch, Hu; reflexivity|].
  split; [intros m Hm; rewrite fetch_tool_echo, Hm; reflexivity|].
  apply fetch_tool_hello.
Qed.

(** C6. Invoking ["fetch"] on a url sends one request, a GET of that
    url that follows redirects and carries the fixed client header;
    when the status of the response is not a success (500, say) the
    call fails with [FetchError], and when it is (200, say) the call
    returns the body of the response, as it is, as a single text
    content item. *)
Theorem invoke_fetch (url : string) :
  let call := fetch_tool send "fetch" {[ "url" := url ]} in
  call.1 = [fetch_request url]
  ∧ req_method (fetch_request url) = "GET"
  ∧ req_url (fetch_request url) = url
  ∧ req_follow_redirects (fetch_request url) = true
  ∧ req_headers (fetch_request url) = [("User-Agent", user_agent)]
  ∧ (forall r, send (fetch_request url) = Ok r -> is_success r = false ->
       call.2 = Raise (FetchError (status_code r)))
  ∧ (forall r, send (fetch_request url) = Ok r -> is_success r = true ->
       call.2 = Ok (single_text (response_text r)))
  ∧ (forall body, send (fetch_request url) = Ok (mkResponse 500 body) ->
       call.2 = Raise (FetchError 500))
  ∧ (forall body, send (fetch_request url) = Ok (mkResponse 200 body) ->
       call.2 = Ok (single_text body)).
Proof.
  cbn zeta. rewrite fetch_tool_fetch, lookup_singleton_eq.
  rewrite fetch_website_sends, fetch_website_result.
  repeat split.
  - intros r -> ->. reflexivity.
  - intros r -> ->. reflexivity.
  - intros body ->. reflexivity.
  - intros body ->. reflexivity.
Qed.

End ToolProperties.

(** Witnesses of the tool properties, on networks that answer every
    request with a fixed response. *)

Section ToolWitnesses.

Import ServerPy.

Lemma invoke_hello_witness :
fetch_tool (answers 200 "") "hello" {[ "name" := "Grace" ]}
= ([], Ok (single_text "Hello, Grace!"))
∧ fetch_tool (answers 200 "") "hello" {[ "title" := "Dr" ]}
  = ([], Ok (single_text "Hello, World!")).
Proof.
split.
- apply (proj1 (invoke_hello (answers 200 "") {[ "name" := "Grace" ]}) "Grace").
  reflexivity.
- apply (proj1 (proj2 (invoke_hello (answers 200 "") {[ "title" := "Dr" ]}))).
  reflexivity.
Defined.

Lemma invoke_echo_verbatim_witness :
fetch_tool (answers 200 "") "echo"
  {[ "message" := "x"; "extra" := "ignored" ]}
= ([], Ok (single_text "x")).
Proof.
apply (invoke_echo_verbatim (answers 200 "") "x"
         {[ "message" := "x"; "extra" := "ignored" ]}).
reflexivity.
Defined.

Lemma invoke_checks_arguments_witness :
fetch_tool (answers 200 "") "delete" ∅
= ([], Raise (UnknownTool "delete"))
∧ fetch_tool (answers 200 "") "echo" {[ "url" := "u" ]}
  = ([], Raise (MissingArgument "message"))
∧ fetch_tool (answers 200 "page") "fetch" {[ "url" := "u" ]}
  = fetch_website (answers 200 "page") "u"
∧ fetch_tool (answers 200 "") "echo" {[ "message" := "hi" ]}
  = echo_message "hi".
Proof.
split; [|split; [|split]].
- apply (proj1 (invoke_checks_arguments (answers 200 "") "delete" ∅)).
  intros H. apply list_elem_of_In in H. cbn in H.
  repeat (destruct H as [H|H]; [discriminate H|]). exact H.
- apply (proj1 (proj2 (invoke_checks_arguments (answers 200 "") "echo"
                         {[ "url" := "u" ]}))
           (mkTool "echo" "Returns the provided message"
              (mkInputSchema "object" ["message"]
                 [("message", mkProperty "string" "Message to echo back")]))
           "message").
  + reflexivity.
  + apply list_elem_of_here.
  + reflexivity.
- apply (proj1 (proj2 (proj2 (proj2 (proj2
           (invoke_checks_arguments (answers 200 "page") "fetch"
              {[ "url" := "u" ]}))))) "u").
  reflexivity.
- apply (proj1 (proj2 (proj2 (proj2 (proj2 (proj2
           (invoke_checks_arguments (answers 200 "") "echo"
              {[ "message" := "hi" ]})))))) "hi").
  reflexivity.
Defined.

Lemma invoke_fetch_witness :
(fetch_tool (answers 500 "Internal Server Error") "fetch"
   {[ "url" := "http://example.org/broken" ]}).2
= Raise (FetchError 500)
∧ (fetch_tool (answers 404 "Not Found") "fetch"
     {[ "url" := "http://example.org/missing" ]}).2
  = Raise (FetchError 404)
∧ (fetch_tool (answers 200 "<html>ok</html>") "fetch"
     {[ "url" := "http://example.org/" ]}).2
  = Ok (single_text "<html>ok</html>")
∧ (fetch_tool (answers 204 "") "fetch"
     {[ "url" := "http://example.org/empty" ]}).2
  = Ok (single_text "").
Proof.
split; [|split; [|split]].
- apply (proj1 (proj2 (proj2 (proj2 (proj2 (proj2 (proj2 (proj2
           (invoke_fetch (answers 500 "Internal Server Error")
              "http://example.org/broken"))))))))
           "Internal Server Error").
  reflexivity.
- apply (proj1 (proj2 (proj2 (proj2 (proj2 (proj2
           (invoke_fetch (answers 404 "Not Found")
              "http://example.org/missing"))))))
           (mkResponse 404 "Not Found")); reflexivity.
- apply (proj2 (proj2 (proj2 (proj2 (proj2 (proj2 (proj2 (proj2
           (invoke_fetch (answers 200 "<html>ok</html>")
              "http://example.org/"))))))))
           "<html>ok</html>").
  reflexivity.
- apply (proj1 (proj2 (proj2 (proj2 (proj2 (proj2 (proj2
           (invoke_fetch (answers 204 "") "http://example.org/empty")))))))
           (mkResponse 204 "")); reflexivity.
Defined.

End ToolWitnesses.

(** * Properties of the lifecycle manager (run.py) *)

Section LifecycleProperties.

Import RunPy.

Variable env : Env.

(** Evaluation of the operations on a world given by its fields, call
    by value, leaving lists, strings and the environment alone. *)
Ltac eval_world :=
  cbv beta iota zeta delta
    [start_server stop_server run run_try bind ret raise get modify lift
     Thread_new Thread_start Thread_join time_sleep logger_info logger_error
     run_server update_thread update_server emit
     set_threads set_servers set_server_thread
     set_state set_daemon set_local_server_instance set_should_exit
     server_instance server_thread threads servers trace
     target_port daemon state local_server_instance
     default from_option id fmap option_fmap option_map fst snd].

Lemma alter_snoc {A} (f : A -> A) (l : list A) (x : A) :
  alter f (length l) (l ++ [x]) = l ++ [f x].
Proof. rewrite alter_app_r_alt by lia. rewrite Nat.sub_diag. reflexivity. Qed.

Lemma lookup_snoc {A} (l : list A) (x : A) : (l ++ [x]) !! length l = Some x.
Proof. apply list_lookup_middle. reflexivity. Qed.

(** What [start_server] leaves when the thread starts. *)
Lemma start_server_started (p : Z) (w : World) :
  can_start env (length (threads w)) = true ->
  start_server env p w =
  (Ok true,
   let tid := length (threads w) in
   mkWorld (server_instance w) (Some tid)
     (threads w ++
        [mkThread p false (if bind_ok env tid p then Alive else Finished)
           (Some (length (servers w)))])
     (servers w ++ [mkUvicornServer (mkConfig "0.0.0.0" p "info") false])
     (trace w ++
        [ThreadStart tid;
         Log "info" ("Starting MCP server on port " +:+ pretty p);
         Log "info" ("Server thread started, available at http://localhost:"
                     +:+ pretty p +:+ "/sse");
         Sleep 1])).
Proof.
  destruct w as [si st ts ss tr]. eval_world. intros ->.
  rewrite !alter_snoc, lookup_snoc. eval_world.
  destruct (bind_ok env (length ts) p); eval_world;
    rewrite ?alter_snoc; eval_world; rewrite <- !app_assoc; reflexivity.
Qed.

(** What it leaves when the thread cannot be started. *)
Lemma start_server_refused (p : Z) (w : World) :
  can_start env (length (threads w)) = false ->
  start_server env p w =
  (Raise (RuntimeError "can't start new thread"),
   mkWorld (server_instance w) (Some (length (threads w)))
     (threads w ++ [mkThread p false Created None]) (servers w) (trace w)).
Proof.
  destruct w as [si st ts ss tr]. eval_world. intros ->.
  rewrite alter_snoc. reflexivity.
Qed.

Lemma is_alive_snoc (tid : nat) (ts : list Thread) (t : Thread) si st ss tr
    si' st' ss' tr' :
  is_alive tid (mkWorld si st (ts ++ [t]) ss tr) = true ->
  is_alive tid (mkWorld si' st' ts ss' tr') = true ∨ tid = length ts.
Proof.
  unfold is_alive; eval_world.
  destruct (decide (tid < length ts)%nat) as [Hlt|Hge].
  - rewrite lookup_app_l by exact Hlt. auto.
  - destruct (decide (tid = length ts)) as [->|Hne]; [auto|].
    rewrite lookup_app_r by lia.
    destruct (tid - length ts)%nat as [|k] eqn:Hk; [lia|].
    destruct k; discriminate.
Qed.

Lemma is_alive_finish (i j : nat) (w : World) :
  is_alive i (update_thread j (set_state Finished) w)
  = is_alive i w && negb (bool_decide (i = j)).
Proof.
  destruct w as [si st ts ss tr].
  unfold is_alive, update_thread, set_threads. cbn [threads].
  rewrite list_lookup_alter.
  case_bool_decide as Hij; case_decide; try congruence; try subst j;
    destruct (ts !! i) as [t|]; cbn [fmap option_fmap option_map negb];
    rewrite ?andb_true_r, ?andb_false_r; reflexivity.
Qed.

(** [stop_server], phase by phase: the exit flag of the server the
    global names, then the join of the thread the global names. *)
Lemma stop_server_unfold (w : World) :
  stop_server env w =
  let w1 := match server_instance w with
            | Some sid => emit (Log "info" "Server shutdown initiated")
                            (update_server sid (set_should_exit true) w)
            | None => w
            end in
  match server_thread w with
  | Some tid =>
      if is_alive tid w then
        let w2 := emit (Join tid 5) w1 in
        let w3 := if told_to_exit tid w2 && exits_in_time env tid
                  then update_thread tid (set_state Finished) w2 else w2 in
        (Ok tt, emit (Log "info" "Server thread stopped") w3)
      else (Ok tt, w1)
  | None => (Ok tt, w1)
  end.
Proof.
  destruct w as [si st ts ss tr].
  destruct si as [sid|], st as [tid|]; eval_world; try reflexivity;
    (destruct (ts !! tid) as [[tp td tst tl]|] eqn:E;
     [destruct (bool_decide (tst = Alive)) eqn:B|]);
    unfold is_alive; repeat (progress (eval_world; rewrite ?E, ?B));
    try reflexivity;
    cbv beta iota delta [andb];
    (destruct (told_to_exit _ _); eval_world; [|reflexivity]);
    destruct (exits_in_time env tid); reflexivity.
Qed.

Lemma stop_server_returns (w : World) : (stop_server env w).1 = Ok tt.
Proof.
  rewrite stop_server_unfold. cbv zeta.
  destruct (server_thread w) as [tid|]; [|reflexivity].
  destruct (is_alive tid w); reflexivity.
Qed.

(** [stop_server] assigns neither global. *)
Lemma stop_server_globals (w : World) :
  server_instance (stop_server env w).2 = server_instance w
  ∧ server_thread (stop_server env w).2 = server_thread w.
Proof.
  rewrite stop_server_unfold. cbv zeta.
  destruct (server_instance w) as [sid|] eqn:Hi;
    destruct (server_thread w) as [tid|] eqn:Ht;
    try (destruct (is_alive tid w));
    try (destruct (told_to_exit _ _ && _));
    split; cbn; assumption.
Qed.

(** [stop_server] brings no thread to life. *)
Lemma stop_server_alive (i : nat) (w : World) :
  is_alive i (stop_server env w).2 = true -> is_alive i w = true.
Proof.
  rewrite stop_server_unfold. cbv zeta.
  destruct (server_instance w) as [sid|];
    destruct (server_thread w) as [tid|];
    try (destruct (is_alive tid w));
    try (destruct (told_to_exit _ _ && _));
    cbn [snd]; try (intros H; exact H);
    change (is_alive i (emit ?e ?w')) with (is_alive i w');
    rewrite is_alive_finish; intros [H _]%andb_true_iff; exact H.
Qed.

Lemma stop_server_idle (w : World) :
  is_running w = false ->
  threads (stop_server env w).2 = threads w
  ∧ (server_instance w = None -> (stop_server env w).2 = w).
Proof.
  unfold is_running. rewrite stop_server_unfold. cbv zeta.
  destruct (server_thread w) as [tid|]; [intros ->|intros _];
    destruct (server_instance w); cbn [snd]; split;
    (reflexivity || discriminate).
Qed.

Lemma stop_server_joined (tid : nat) (w : World) :
  server_thread w = Some tid -> is_running w = true ->
  (exists pre,
      trace (stop_server env w).2
      = trace w ++ pre ++ [Join tid 5; Log "info" "Server thread stopped"]
      ∧ (pre = [] ∨ pre = [Log "info" "Server shutdown initiated"]))
  ∧ (exits_in_time env tid = false -> is_running (stop_server env w).2 = true).
Proof.
  unfold is_running at 1. intros Ht Ha. rewrite Ht in Ha.
  unfold is_running.
  rewrite stop_server_unfold. cbv zeta. rewrite Ht, Ha.
  split.
  - destruct (server_instance w) as [sid|].
    + exists [Log "info" "Server shutdown initiated"].
      split; [|right; reflexivity].
      destruct (_ && _); cbn [snd]; unfold emit, update_thread, update_server,
        set_threads, set_servers; cbn [trace]; rewrite <- !app_assoc; reflexivity.
    + exists []. split; [|left; reflexivity].
      destruct (_ && _); cbn [snd]; unfold emit, update_thread, update_server,
        set_threads, set_servers; cbn [trace]; rewrite <- !app_assoc; reflexivity.
  - intros ->. rewrite andb_false_r.
    destruct (server_instance w) as [sid|]; cbn [snd];
      unfold emit, update_server, set_servers; cbn [server_thread];
      rewrite Ht; exact Ha.
Qed.

Section RunProperties.

Variables ModuleRun RawInputs : Type.
Variable AgentRunInput : ModuleRun -> result RawInputs.
Variable InputSchema_new : RawInputs -> result InputSchema.

Local Abbreviation run_try :=
  (RunPy.run_try env ModuleRun RawInputs AgentRunInput InputSchema_new).
Local Abbreviation run :=
  (RunPy.run env ModuleRun RawInputs AgentRunInput InputSchema_new).

(** The [try] block on an invocation that fails a validation. *)
Lemma run_try_invalid (d : ModuleRun) (w : World) (e : exn) :
  AgentRunInput d = Raise e
  ∨ (exists raw, AgentRunInput d = Ok raw ∧ InputSchema_new raw = Raise e) ->
  run_try d w = (Raise e, w).
Proof.
  unfold RunPy.run_try, bind, lift.
  intros [->|(raw & -> & ->)]; reflexivity.
Qed.

(** The [try] block on an invocation that passes both. *)
Lemma run_try_parsed (d : ModuleRun) (raw : RawInputs) (inputs : InputSchema)
    (w : World) :
  AgentRunInput d = Ok raw -> InputSchema_new raw = Ok inputs ->
  run_try d w =
  let w0 := emit (Log "info" ("Received input: " +:+ str_InputSchema inputs)) w in
  let port := inputs_port inputs in
  let success := mkRunResult "success"
                   ("MCP server started for this run on port " +:+ pretty port) in
  if is_running w then (Ok success, w0)
  else match start_server env port w0 with
       | (Ok _, w1) =>
           (Ok success, emit (Log "info" "MCP server started for this run") w1)
       | (Raise e, w1) => (Raise e, w1)
       end.
Proof.
  intros HA HI. unfold RunPy.run_try, bind, lift, get, logger_info, modify.
  rewrite HA, HI. cbv beta iota zeta.
  change (is_running (emit ?e w)) with (is_running w).
  destruct (is_running w); [reflexivity|]. cbv beta iota delta [negb].
  destruct (can_start env (length (threads w))) eqn:Hc.
  - rewrite start_server_started by exact Hc. reflexivity.
  - rewrite start_server_refused by exact Hc. reflexivity.
Qed.

(** [run] on an invocation that passes both validations. *)
Lemma run_parsed (d : ModuleRun) (raw : RawInputs) (inputs : InputSchema)
    (w : World) :
  AgentRunInput d = Ok raw -> InputSchema_new raw = Ok inputs ->
  (run d w).1 =
  if is_running w || can_start env (length (threads w))
  then Ok (mkRunResult "success"
             ("MCP server started for this run on port "
              +:+ pretty (inputs_port inputs)))
  else Raise (RuntimeError "can't start new thread").
Proof.
  intros HA HI. unfold RunPy.run.
  rewrite (run_try_parsed d raw inputs w HA HI). cbv zeta.
  destruct (is_running w); [reflexivity|]. cbv beta iota delta [orb].
  destruct (can_start env (length (threads w))) eqn:Hc.
  - rewrite start_server_started by exact Hc. reflexivity.
  - rewrite start_server_refused by exact Hc.
    cbv beta iota.
    match goal with |- context [ (?m ;;; stop_server env) ?x ] =>
      pose proof (stop_server_returns
                    (emit (Log "error"
                             ("Error in run function: "
                              +:+ str_exn (RuntimeError "can't start new thread"))) x)) as Hs
    end.
    unfold bind, logger_error, modify. cbv beta iota.
    destruct (stop_server env _) as [[[]|e'] w'']; [reflexivity|discriminate Hs].
Qed.

(** [run] re-raises what its [try] block raised, after the handler
    logged it and ran [stop_server]. *)
Lemma run_handler (d : ModuleRun) (w w1 : World) (e : exn) :
  run_try d w = (Raise e, w1) ->
  run d w =
  (Raise e,
   (stop_server env
      (emit (Log "error" ("Error in run function: " +:+ str_exn e)) w1)).2).
Proof.
  intros Htry. unfold RunPy.run. rewrite Htry.
  unfold bind, logger_error, modify. cbv beta iota.
  pose proof (stop_server_returns
                (emit (Log "error" ("Error in run function: " +:+ str_exn e)) w1))
    as Hs.
  destruct (stop_server env _) as [[[]|e'] w'']; [reflexivity|discriminate Hs].
Qed.

(** A thread that is alive where the [try] block raised was alive
    when [run] was entered. *)
Lemma run_try_raise_alive (d : ModuleRun) (w w1 : World) (e : exn) (i : nat) :
  run_try d w = (Raise e, w1) ->
  is_alive i w1 = true -> is_alive i w = true.
Proof.
  destruct (AgentRunInput d) as [raw|e0] eqn:HA.
  - destruct (InputSchema_new raw) as [inputs|e1] eqn:HI.
    + rewrite (run_try_parsed d raw inputs w HA HI). cbv zeta.
      destruct (is_running w); [discriminate|].
      destruct (can_start env (length (threads w))) eqn:Hc.
      * rewrite start_server_started by exact Hc. discriminate.
      * rewrite start_server_refused by exact Hc.
        intros [= <- <-]. cbn [threads emit].
        intros H. destruct w as [si st ts ss tr].
        destruct (is_alive_snoc _ _ _ _ _ _ _ si st ss tr H) as [H'|Hi];
          [exact H'|]. subst i.
        exfalso. revert H. unfold is_alive. cbn [threads].
        rewrite lookup_snoc. discriminate.
    + rewrite (run_try_invalid d w e1) by (right; exists raw; split; assumption).
      intros [= <- <-]. auto.
  - rewrite (run_try_invalid d w e0) by (left; exact HA).
    intros [= <- <-]. auto.
Qed.

(** No operation assigns the global [server_instance]: the only
    assignment to that name is the one in [run_server], to its local. *)
Lemma server_instance_never_assigned (p : Z) (d : ModuleRun) (w : World) :
  server_instance (start_server env p w).2 = server_instance w
  ∧ server_instance (stop_server env w).2 = server_instance w
  ∧ server_instance (run d w).2 = server_instance w.
Proof.
  assert (Hstart : forall q w0,
             server_instance (start_server env q w0).2 = server_instance w0).
  { intros q w0. destruct (can_start env (length (threads w0))) eqn:Hc.
    - rewrite start_server_started by exact Hc. reflexivity.
    - rewrite start_server_refused by exact Hc. reflexivity. }
  split; [apply Hstart|]. split; [apply stop_server_globals|].
  assert (Htry : forall r w1, run_try d w = (r, w1) ->
                              server_instance w1 = server_instance w).
  { intros r w1.
    destruct (AgentRunInput d) as [raw|e0] eqn:HA.
    - destruct (InputSchema_new raw) as [inputs|e1] eqn:HI.
      + rewrite (run_try_parsed d raw inputs w HA HI). cbv zeta.
        destruct (is_running w); [intros [= _ <-]; reflexivity|].
        pose proof (Hstart (inputs_port inputs)
                      (emit (Log "info" ("Received input: "
                                         +:+ str_InputSchema inputs)) w)) as Hs.
        destruct (start_server env _ _) as [[b|e] w2];
          intros [= _ <-]; exact Hs.
      + rewrite (run_try_invalid d w e1)
          by (right; exists raw; split; assumption).
        intros [= _ <-]. reflexivity.
    - rewrite (run_try_invalid d w e0) by (left; exact HA).
      intros [= _ <-]. reflexivity. }
  destruct (run_try d w) as [[r|e] w1] eqn:Hrun.
  - unfold RunPy.run. rewrite Hrun. apply (Htry _ _ eq_refl).
  - rewrite (run_handler d w w1 e Hrun). cbn [snd].
    rewrite (proj1 (stop_server_globals _)). apply (Htry _ _ eq_refl).
Qed.

(** C1 (amended). [start_server] makes no check of the run state:
    whether or not a server is running, when the thread starts and
    its listener binds the port, the call creates and starts a new
    non-daemon thread that serves the port, records it as the server
    thread, sleeps the fixed second, leaves the state running and
    returns [True].  The check is in [run]: when the recorded thread
    is alive, [run] on valid inputs starts nothing and returns the
    status ["success"]. *)
Theorem start_server_has_no_guard (p : Z) (w : World) :
  can_start env (length (threads w)) = true ->
  bind_ok env (length (threads w)) p = true ->
  let tid := length (threads w) in
  let w' := (start_server env p w).2 in
  (start_server env p w).1 = Ok true
  ∧ threads w' = threads w ++ [mkThread p false Alive (Some (length (servers w)))]
  ∧ server_thread w' = Some tid
  ∧ is_running w' = true
  ∧ trace w' = trace w ++
      [ThreadStart tid;
       Log "info" ("Starting MCP server on port " +:+ pretty p);
       Log "info" ("Server thread started, available at http://localhost:"
                   +:+ pretty p +:+ "/sse");
       Sleep 1]
  ∧ (forall d raw inputs,
       AgentRunInput d = Ok raw -> InputSchema_new raw = Ok inputs ->
       is_running w = true ->
       run d w =
       (Ok (mkRunResult "success"
              ("MCP server started for this run on port "
               +:+ pretty (inputs_port inputs))),
        emit (Log "info" ("Received input: " +:+ str_InputSchema inputs)) w)).
Proof.
  intros Hc Hb. cbv zeta. rewrite (start_server_started p w Hc). cbv zeta.
  rewrite Hb. cbn [fst snd threads server_thread trace].
  repeat split.
  - unfold is_running, is_alive. cbn [server_thread threads].
    rewrite lookup_snoc. reflexivity.
  - intros d raw inputs HA HI Hr. unfold RunPy.run.
    rewrite (run_try_parsed d raw inputs w HA HI). cbv zeta.
    rewrite Hr. reflexivity.
Qed.

(** C10. [start_server] returns [True] whenever it returns, whether
    or not the listener bound the port: it never returns [False].  So
    [run] never returns a result of status ["error"]: it returns a
    result of status ["success"] or raises, and on inputs that pass
    the validations it raises only when the thread cannot be
    started. *)
Theorem run_never_returns_error (p : Z) (d : ModuleRun) (w : World) :
  (start_server env p w).1
  = (if can_start env (length (threads w)) then Ok true
     else Raise (RuntimeError "can't start new thread"))
  ∧ (start_server env p w).1 ≠ Ok false
  ∧ match (run d w).1 with
    | Ok r => status r = "success" ∧ status r ≠ "error"
    | Raise _ => True
    end
  ∧ match AgentRunInput d with
    | Ok raw =>
        match InputSchema_new raw with
        | Ok inputs =>
            (run d w).1 =
            if is_running w || can_start env (length (threads w))
            then Ok (mkRunResult "success"
                       ("MCP server started for this run on port "
                        +:+ pretty (inputs_port inputs)))
            else Raise (RuntimeError "can't start new thread")
        | Raise e => (run d w).1 = Raise e
        end
    | Raise e => (run d w).1 = Raise e
    end.
Proof.
  assert (Hstart : (start_server env p w).1
                   = (if can_start env (length (threads w)) then Ok true
                      else Raise (RuntimeError "can't start new thread"))).
  { destruct (can_start env (length (threads w))) eqn:Hc.
    - rewrite start_server_started by exact Hc. reflexivity.
    - rewrite start_server_refused by exact Hc. reflexivity. }
  split; [exact Hstart|].
  split; [rewrite Hstart; destruct (can_start env _); discriminate|].
  destruct (AgentRunInput d) as [raw|e0] eqn:HA.
  - destruct (InputSchema_new raw) as [inputs|e1] eqn:HI.
    + rewrite (run_parsed d raw inputs w HA HI).
      split; [|reflexivity].
      destruct (_ || _); [|exact I]. split; [reflexivity|discriminate].
    + rewrite (run_handler d w w e1)
        by (apply run_try_invalid; right; exists raw; split; assumption).
      split; [exact I|reflexivity].
  - rewrite (run_handler d w w e0)
      by (apply run_try_invalid; left; exact HA).
    split; [exact I|reflexivity].
Qed.

End RunProperties.

(** What [start_server] answers when the listener cannot bind. *)
Lemma start_server_bind_failure (p : Z) (w : World) :
  can_start env (length (threads w)) = true ->
  bind_ok env (length (threads w)) p = false ->
  (start_server env p w).1 = Ok true
  ∧ is_running (start_server env p w).2 = false.
Proof.
  intros Hc Hb. rewrite (start_server_started p w Hc). cbv zeta.
  rewrite Hb. split; [reflexivity|].
  unfold is_running, is_alive. cbn [snd server_thread threads].
  rewrite lookup_snoc. reflexivity.
Qed.

(** What [stop_server] does in every state.  It never raises and
    assigns no global, so it marks nothing: the server counts as
    running afterwards exactly when the recorded thread is still alive.  When no live
    thread is recorded it joins nothing, leaves the threads as they
    are, and is a no-op when no server instance is recorded either.
    When the recorded thread is alive it joins it once, with a timeout
    of five seconds, logs that the thread stopped and returns, whether
    or not the thread ended; if the thread is still there when the
    join gives up, the server is still running. *)
Lemma stop_server_joins_without_marking (w : World) :
  let w' := (stop_server env w).2 in
  (stop_server env w).1 = Ok tt
  ∧ server_instance w' = server_instance w
  ∧ server_thread w' = server_thread w
  ∧ (is_running w = false -> threads w' = threads w ∧ is_running w' = false)
  ∧ (is_running w = false -> server_instance w = None -> w' = w)
  ∧ (forall tid, server_thread w = Some tid -> is_running w = true ->
       (exists pre,
           trace w' = trace w ++ pre
                        ++ [Join tid 5; Log "info" "Server thread stopped"]
           ∧ forall t s, Join t s ∉ pre)
       ∧ (exits_in_time env tid = false -> is_running w' = true))
  ∧ (is_running w' = true -> is_running w = true).
Proof.
  cbv zeta.
  destruct (stop_server_globals w) as [Hsi Hst].
  split; [apply stop_server_returns|].
  split; [exact Hsi|].
  split; [exact Hst|].
  split.
  { intros Hr. destruct (stop_server_idle w Hr) as [Hts _].
    split; [exact Hts|].
    revert Hr. unfold is_running, is_alive. rewrite Hst, Hts. auto. }
  split.
  { intros Hr Hi. apply (stop_server_idle w Hr). exact Hi. }
  split.
  { intros tid Ht Hr.
    destruct (stop_server_joined tid w Ht Hr) as [(pre & Htr & Hpre) Hslow].
    split; [|exact Hslow].
    exists pre. split; [exact Htr|].
    intros t s Hin. destruct Hpre as [->| ->].
    - inversion Hin.
    - apply list_elem_of_singleton in Hin. discriminate Hin. }
  unfold is_running. rewrite Hst.
  destruct (server_thread w) as [tid|]; [|auto].
  apply stop_server_alive.
Qed.

End LifecycleProperties.

(** * The lifecycle manager on concrete runs *)

Section LifecycleRuns.

Import RunPy.

(** C3. When the listener cannot bind the port, [start_server] still
    returns [True], although the thread has ended and no server is
    running: the failure the specification asks for is not
    reported. *)
Theorem start_server_reports_success_on_bind_failure :
  bind_ok env_port_taken 0 8000 = false
  ∧ (start_server env_port_taken 8000 initial).1 = Ok true
  ∧ is_running (start_server env_port_taken 8000 initial).2 = false
  ∧ state <$> threads (start_server env_port_taken 8000 initial).2 = [Finished].
Proof.
  split; [reflexivity|].
  destruct (start_server_bind_failure env_port_taken 8000 initial eq_refl eq_refl)
    as [Hret Hrun].
  split; [exact Hret|]. split; [exact Hrun|].
  vm_compute. reflexivity.
Qed.

(** C1, as stated, fails: with a server running on port 8000, a second
    [start_server] on that port returns [True] and has started a
    second thread. *)
Lemma start_server_twice_succeeds :
  let w1 := (start_server env_first_binds 8000 initial).2 in
  is_running w1 = true
  ∧ (start_server env_first_binds 8000 w1).1 = Ok true
  ∧ length (threads (start_server env_first_binds 8000 w1).2) = 2%nat.
Proof. vm_compute. auto. Qed.

(** C2. After [start_server] on port 8000, with a server that would be
    gone in time if it were told to exit, [stop_server] returns with the
    exit flag of the server unset, the thread alive and the state
    running: the global [server_instance] it reads was never assigned,
    so the graceful exit the claim describes is not signalled. *)
Theorem stop_server_leaves_server_running :
  let w := (start_server env_ok 8000 initial).2 in
  is_running w = true
  ∧ (stop_server env_ok w).1 = Ok tt
  ∧ should_exit <$> servers (stop_server env_ok w).2 = [false]
  ∧ is_running (stop_server env_ok w).2 = true.
Proof. vm_compute. auto. Qed.

Lemma start_server_has_no_guard_witness :
  let w1 := (start_server env_ok 8000 initial).2 in
  (start_server env_ok 8001 w1).1 = Ok true
  ∧ is_running (start_server env_ok 8001 w1).2 = true
  ∧ (run env_ok (option Z) (option Z) demo_AgentRunInput demo_InputSchema
       (Some 8001) w1).1
    = Ok (mkRunResult "success" "MCP server started for this run on port 8001").
Proof.
  cbv zeta.
  pose proof (start_server_has_no_guard env_ok (option Z) (option Z)
                demo_AgentRunInput demo_InputSchema 8001
                (start_server env_ok 8000 initial).2 eq_refl eq_refl) as H.
  cbv zeta in H.
  destruct H as (Hret & _ & _ & Hrun & _ & Hguard).
  split; [exact Hret|]. split; [exact Hrun|].
  rewrite (Hguard (Some 8001) (Some 8001) (mkInputSchema 8001) eq_refl eq_refl);
    [vm_compute; reflexivity|vm_compute; reflexivity].
Defined.

Lemma run_never_returns_error_witness :
  (start_server env_port_taken 8000 initial).1 ≠ Ok false
  ∧ (run env_port_taken (option Z) (option Z) demo_AgentRunInput demo_InputSchema
       (Some 8000) initial).1
    = Ok (mkRunResult "success" "MCP server started for this run on port 8000").
Proof.
  pose proof (run_never_returns_error env_port_taken (option Z) (option Z)
                demo_AgentRunInput demo_InputSchema 8000 (Some 8000) initial)
    as (_ & Hne & _ & Hrun).
  split; [exact Hne|]. exact Hrun.
Defined.

End LifecycleRuns.

(** * Further properties of the tools (server.py) *)

Section ToolDispatch.

Import ServerPy.

Variable send : Request -> result Response.

Lemma tool_names_elem (n : string) :
  n ∈ tool_names <-> n = "fetch" ∨ n = "echo" ∨ n = "hello".
Proof.
  rewrite list_elem_of_In. cbn. intuition auto.
Qed.

Lemma string_length_app (a c : string) :
  String.length (a +:+ c) = (String.length a + String.length c)%nat.
Proof.
  induction a as [|x a IH]; [reflexivity|].
  change (S (String.length (a +:+ c)) = S (String.length a + String.length c)).
  f_equal. exact IH.
Qed.

Lemma string_app_inj_r (a b c : string) : a +:+ c = b +:+ c -> a = b.
Proof.
  intros H. assert (Hlen : String.length a = String.length b).
  { apply (f_equal String.length) in H.
    rewrite !string_length_app in H. lia. }
  revert b H Hlen. induction a as [|x a IH]; intros [|y b] H Hlen;
    try discriminate Hlen; [reflexivity|].
  cbn in H. injection H as -> H. f_equal. apply IH; [exact H|].
  cbn in Hlen. lia.
Qed.

(** X1. The dispatcher and the listing agree on which tools exist: a
    call fails with [UnknownTool], without any request sent, exactly
    when its name is not the name of a descriptor of [list_tools]. *)
Theorem unknown_tool_iff_not_listed (n : string) (arguments : gmap string string) :
  fetch_tool send n arguments = ([], Raise (UnknownTool n)) <-> n ∉ tool_names.
Proof.
  split; [|apply fetch_tool_unknown].
  intros Hcall Hin. apply tool_names_elem in Hin as [->|[->| ->]].
  - rewrite fetch_tool_fetch in Hcall.
    destruct (arguments !! "url") as [url|]; [|discriminate Hcall].
    apply (f_equal fst) in Hcall. rewrite fetch_website_sends in Hcall.
    discriminate Hcall.
  - rewrite fetch_tool_echo in Hcall.
    destruct (arguments !! "message"); discriminate Hcall.
  - rewrite fetch_tool_hello in Hcall. discriminate Hcall.
Qed.

(** X2. Whatever the tool and the arguments, a call that succeeds
    returns exactly one content item, of type ["text"]. *)
Theorem success_is_one_text_item (n : string) (arguments : gmap string string)
    (r : list TextContent) :
  (fetch_tool send n arguments).2 = Ok r ->
  length r = 1%nat ∧ Forall (fun c => tc_type c = "text") r.
Proof.
  unfold fetch_tool. repeat case_decide; subst.
  - destruct (arguments !! "url") as [url|]; [|discriminate].
    rewrite fetch_website_result.
    destruct (send _) as [resp|e]; [|discriminate].
    destruct (is_success resp); [|discriminate].
    intros [= <-]. split; [reflexivity|]. repeat constructor.
  - destruct (arguments !! "message") as [m|]; [|discriminate].
    intros [= <-]. split; [reflexivity|]. repeat constructor.
  - intros [= <-]. split; [reflexivity|]. repeat constructor.
  - discriminate.
Qed.

(** X3. Only ["fetch"] called with a ["url"] touches the network, and it
    sends one request, the GET of that url; every other call, failing or
    not, sends nothing. *)
Theorem requests_sent (n : string) (arguments : gmap string string) :
  (fetch_tool send n arguments).1 =
  match decide (n = "fetch"), arguments !! "url" with
  | left _, Some url => [fetch_request url]
  | _, _ => []
  end.
Proof.
  unfold fetch_tool. repeat case_decide; subst; try reflexivity.
  - destruct (arguments !! "url") as [url|]; [|reflexivity].
    apply fetch_website_sends.
  - destruct (arguments !! "message"); reflexivity.
Qed.

(** X4. A failure of the transport during a fetch reaches the caller as
    it is, after the one request was sent: [fetch_tool] neither catches
    nor wraps it. *)
Theorem transport_failure_propagates (url : string)
    (arguments : gmap string string) (e : exn) :
  arguments !! "url" = Some url ->
  send (fetch_request url) = Raise e ->
  fetch_tool send "fetch" arguments = ([fetch_request url], Raise e).
Proof.
  intros Hu He. rewrite fetch_tool_fetch, Hu.
  rewrite (surjective_pairing (fetch_website send url)).
  rewrite fetch_website_sends, fetch_website_result, He. reflexivity.
Qed.

(** X5. A tool reads only the arguments its input schema declares under
    ["properties"]: setting any other key of the arguments changes
    neither the requests sent nor the result. *)
Theorem undeclared_arguments_are_ignored (t : Tool) (k v : string)
    (arguments : gmap string string) :
  t ∈ list_tools ->
  k ∉ (properties (inputSchema t)).*1 ->
  fetch_tool send (name t) (<[k:=v]> arguments)
  = fetch_tool send (name t) arguments.
Proof.
  intros Ht Hk. apply list_elem_of_In in Ht. cbn in Ht.
  destruct Ht as [<-|[<-|[<-|[]]]]; cbn in Hk;
    apply not_elem_of_cons in Hk as [Hk _].
  - rewrite !fetch_tool_fetch, lookup_insert_ne by exact Hk. reflexivity.
  - rewrite !fetch_tool_echo, lookup_insert_ne by exact Hk. reflexivity.
  - rewrite !fetch_tool_hello, lookup_insert_ne by exact Hk. reflexivity.
Qed.

(** X6. The greeting determines the name that was greeted: two calls of
    ["hello"] that return the same result greeted the same name, where
    an omitted name counts as ["World"]. *)
Theorem greeting_determines_name (a a' : gmap string string) :
  fetch_tool send "hello" a = fetch_tool send "hello" a' ->
  default "World" (a !! "name") = default "World" (a' !! "name").
Proof.
  rewrite !fetch_tool_hello. unfold say_hello, net_ret.
  intros [= H]. apply (string_app_inj_r _ _ "!"). exact H.
Qed.

End ToolDispatch.

Section ToolDispatchWitnesses.

Import ServerPy.

Lemma unknown_tool_iff_not_listed_witness :
  fetch_tool (answers 200 "") "Echo" {[ "message" := "x" ]}
  = ([], Raise (UnknownTool "Echo")).
Proof.
  apply (proj2 (unknown_tool_iff_not_listed (answers 200 "") "Echo"
                  {[ "message" := "x" ]})).
  intros H. apply list_elem_of_In in H. cbn in H.
  repeat (destruct H as [H|H]; [discriminate H|]). exact H.
Defined.

Lemma success_is_one_text_item_witness :
  length (single_text "page") = 1%nat
  ∧ Forall (fun c => tc_type c = "text") (single_text "page").
Proof.
  apply (success_is_one_text_item (answers 200 "page") "fetch"
           {[ "url" := "http://example.org/" ]} (single_text "page")).
  reflexivity.
Defined.

Lemma transport_failure_propagates_witness :
  fetch_tool (fun _ => Raise (TransportError "connection refused")) "fetch"
    {[ "url" := "http://localhost:1/" ]}
  = ([fetch_request "http://localhost:1/"],
     Raise (TransportError "connection refused")).
Proof.
  apply (transport_failure_propagates
           (fun _ => Raise (TransportError "connection refused"))
           "http://localhost:1/" {[ "url" := "http://localhost:1/" ]}
           (TransportError "connection refused"));
    reflexivity.
Defined.

Lemma undeclared_arguments_are_ignored_witness :
  fetch_tool (answers 200 "") "hello"
    (<[ "url" := "http://example.org/" ]> {[ "name" := "Ada" ]})
  = fetch_tool (answers 200 "") "hello" {[ "name" := "Ada" ]}.
Proof.
  apply (undeclared_arguments_are_ignored (answers 200 "")
           (mkTool "hello" "Returns a greeting message"
              (mkInputSchema "object" []
                 [("name", mkProperty "string"
                             "Name to greet (defaults to 'World')")]))
           "url" "http://example.org/" {[ "name" := "Ada" ]}).
  - apply list_elem_of_In. cbn. right. right. left. reflexivity.
  - intros H. apply list_elem_of_In in H. cbn in H.
    destruct H as [H|H]; [discriminate H|exact H].
Defined.

Lemma greeting_determines_name_witness :
  default "World" (({[ "name" := "World" ]} : gmap string string) !! "name")
  = default "World" ((∅ : gmap string string) !! "name").
Proof.
  apply (greeting_determines_name (answers 200 "") {[ "name" := "World" ]} ∅).
  reflexivity.
Defined.

End ToolDispatchWitnesses.

(** * Invariants of the lifecycle manager (run.py) *)

Section LifecycleInvariants.

Import RunPy.

Variable env : Env.
Variables ModuleRun RawInputs : Type.
Variable AgentRunInput : ModuleRun -> result RawInputs.
Variable InputSchema_new : RawInputs -> result InputSchema.

Local Abbreviation run :=
  (RunPy.run env ModuleRun RawInputs AgentRunInput InputSchema_new).
Local Abbreviation run_try :=
  (RunPy.run_try env ModuleRun RawInputs AgentRunInput InputSchema_new).
Local Abbreviation reachable :=
  (RunPy.reachable env ModuleRun RawInputs AgentRunInput InputSchema_new).

Lemma told_to_exit_unset (tid : nat) (w : World) :
  Forall (fun s => should_exit s = false) (servers w) ->
  told_to_exit tid w = false.
Proof.
  intros Hfl. unfold told_to_exit.
  destruct (threads w !! tid) as [t|]; [|reflexivity].
  destruct (local_server_instance t) as [sid|]; [|reflexivity].
  destruct (servers w !! sid) as [s|] eqn:Hs; [|reflexivity].
  exact (Forall_lookup_1 _ _ _ _ Hfl Hs).
Qed.

(** [stop_server] where no exit flag is set: at most a join that times
    out. *)
Lemma stop_server_quiet (w : World) :
  exit_flag_unset w ->
  (stop_server env w).2 =
  match server_thread w with
  | Some tid =>
      if is_alive tid w
      then emit (Log "info" "Server thread stopped") (emit (Join tid 5) w)
      else w
  | None => w
  end.
Proof.
  intros [Hsi Hfl]. rewrite stop_server_unfold, Hsi. cbv zeta.
  destruct (server_thread w) as [tid|]; [|reflexivity].
  destruct (is_alive tid w); [|reflexivity].
  change (told_to_exit tid (emit ?e w)) with (told_to_exit tid w).
  rewrite (told_to_exit_unset tid w Hfl). reflexivity.
Qed.

Lemma stop_server_quiet_fields (w : World) :
  exit_flag_unset w ->
  threads (stop_server env w).2 = threads w
  ∧ servers (stop_server env w).2 = servers w
  ∧ server_thread (stop_server env w).2 = server_thread w
  ∧ server_instance (stop_server env w).2 = server_instance w.
Proof.
  intros H. rewrite (stop_server_quiet w H).
  destruct (server_thread w) as [tid|] eqn:Ht; [|rewrite Ht; auto].
  destruct (is_alive tid w); cbn [emit threads servers server_thread server_instance];
    rewrite ?Ht; auto.
Qed.

(** The fields [start_server] leaves, whether the thread starts or not. *)
Lemma start_server_fields (p : Z) (w : World) :
  server_instance (start_server env p w).2 = server_instance w
  ∧ server_thread (start_server env p w).2 = Some (length (threads w))
  ∧ (exists t, threads (start_server env p w).2 = threads w ++ [t]
               ∧ daemon t = false ∧ target_port t = p)
  ∧ (exists ss, servers (start_server env p w).2 = servers w ++ ss
                ∧ Forall (fun s => should_exit s = false) ss).
Proof.
  destruct (can_start env (length (threads w))) eqn:Hc.
  - rewrite (start_server_started env p w Hc). cbv zeta.
    cbn [snd server_instance server_thread threads servers].
    split; [reflexivity|]. split; [reflexivity|]. split.
    + eexists. split; [reflexivity|]. split; reflexivity.
    + eexists. split; [reflexivity|]. repeat constructor.
  - rewrite (start_server_refused env p w Hc).
    cbn [snd server_instance server_thread threads servers].
    split; [reflexivity|]. split; [reflexivity|]. split.
    + eexists. split; [reflexivity|]. split; reflexivity.
    + exists []. split; [rewrite app_nil_r; reflexivity|constructor].
Qed.

(** What every step of the control thread keeps. *)
Lemma evolves_keeps (w w' : World) :
  evolves env w w' ->
  exit_flag_unset w ∧ Forall (fun t => daemon t = false) (threads w) ->
  exit_flag_unset w' ∧ Forall (fun t => daemon t = false) (threads w').
Proof.
  intros Hev Hw. induction Hev as [w|e w w' _ IH|p w w' _ IH|w w' _ IH].
  - exact Hw.
  - exact (IH Hw).
  - destruct (IH Hw) as [[Hsi Hfl] Hd].
    destruct (start_server_fields p w') as (Esi & _ & (t & Et & Edt & _) & (ss & Es & Ess)).
    split; [split|].
    + rewrite Esi. exact Hsi.
    + rewrite Es. apply Forall_app_2; assumption.
    + rewrite Et. apply Forall_app_2; [exact Hd|]. constructor; [exact Edt|constructor].
  - destruct (IH Hw) as [Hflag Hd].
    destruct (stop_server_quiet_fields w' Hflag) as (Et & Es & _ & Esi).
    destruct Hflag as [Hsi Hfl].
    split; [split|].
    + rewrite Esi. exact Hsi.
    + rewrite Es. exact Hfl.
    + rewrite Et. exact Hd.
Qed.

Lemma run_try_evolves (d : ModuleRun) (w w1 : World) (r : result RunResult) :
  run_try d w = (r, w1) -> evolves env w w1.
Proof.
  destruct (AgentRunInput d) as [raw|e0] eqn:HA.
  - destruct (InputSchema_new raw) as [inputs|e1] eqn:HI.
    + rewrite (run_try_parsed env _ _ _ _ d raw inputs w HA HI). cbv zeta.
      destruct (is_running w).
      * intros [= _ <-]. apply evolves_emit, evolves_refl.
      * pose proof (evolves_start_server env (inputs_port inputs) w _
                      (evolves_emit env
                         (Log "info" ("Received input: " +:+ str_InputSchema inputs))
                         w w (evolves_refl env w))) as Hev.
        destruct (start_server env _ _) as [[b|e] w2]; intros [= _ <-].
        -- apply evolves_emit. exact Hev.
        -- exact Hev.
    + rewrite (run_try_invalid env _ _ _ _ d w e1)
        by (right; exists raw; split; assumption).
      intros [= _ <-]. apply evolves_refl.
  - rewrite (run_try_invalid env _ _ _ _ d w e0) by (left; exact HA).
    intros [= _ <-]. apply evolves_refl.
Qed.

Lemma run_evolves (d : ModuleRun) (w : World) : evolves env w (run d w).2.
Proof.
  destruct (run_try d w) as [[r|e] w1] eqn:Hrun.
  - unfold RunPy.run. rewrite Hrun. apply (run_try_evolves d w w1 _ Hrun).
  - rewrite (run_handler env _ _ _ _ d w w1 e Hrun). cbn [snd].
    apply evolves_stop_server, evolves_emit.
    apply (run_try_evolves d w w1 _ Hrun).
Qed.

Lemma reachable_keeps (w : World) :
  reachable w ->
  exit_flag_unset w ∧ Forall (fun t => daemon t = false) (threads w).
Proof.
  induction 1 as [|p w _ IH|w _ IH|d w _ IH].
  - split; [split; [reflexivity|constructor]|constructor].
  - apply (evolves_keeps w); [|exact IH].
    apply evolves_start_server, evolves_refl.
  - apply (evolves_keeps w); [|exact IH].
    apply evolves_stop_server, evolves_refl.
  - apply (evolves_keeps w); [|exact IH]. apply run_evolves.
Qed.

Lemma is_alive_app_one (tid : nat) (w w' : World) (t : Thread) :
  threads w' = threads w ++ [t] ->
  is_alive tid w' = true ->
  is_alive tid w = true ∨ tid = length (threads w).
Proof.
  unfold is_alive. intros ->.
  destruct (decide (tid < length (threads w))%nat) as [Hlt|Hge].
  - rewrite lookup_app_l by exact Hlt. auto.
  - destruct (decide (tid = length (threads w))) as [->|Hne]; [auto|].
    rewrite lookup_app_r by lia.
    destruct (tid - length (threads w))%nat as [|k] eqn:Hk; [lia|].
    destruct k; discriminate.
Qed.

Lemma stop_server_keeps_single_instance (w : World) :
  single_instance w -> single_instance (stop_server env w).2.
Proof.
  intros H tid Ha. apply stop_server_alive in Ha.
  rewrite (proj2 (stop_server_globals env w)). exact (H tid Ha).
Qed.

Lemma run_try_keeps_single_instance (d : ModuleRun) (w w1 : World)
    (r : result RunResult) :
  run_try d w = (r, w1) -> single_instance w -> single_instance w1.
Proof.
  intros Hrun Hw.
  destruct (AgentRunInput d) as [raw|e0] eqn:HA.
  - destruct (InputSchema_new raw) as [inputs|e1] eqn:HI.
    + rewrite (run_try_parsed env _ _ _ _ d raw inputs w HA HI) in Hrun.
      cbv zeta in Hrun.
      destruct (is_running w) eqn:Hr.
      * injection Hrun as _ <-. exact Hw.
      * assert (Hnone : forall tid, is_alive tid w = true -> False).
        { intros tid Ha. pose proof (Hw tid Ha) as Hst.
          unfold is_running in Hr. rewrite Hst, Ha in Hr. discriminate Hr. }
        set (w0 := emit (Log "info" ("Received input: " +:+ str_InputSchema inputs)) w)
          in Hrun.
        destruct (start_server_fields (inputs_port inputs) w0)
          as (_ & Est & (t & Et & _) & _).
        assert (Hnew : single_instance (start_server env (inputs_port inputs) w0).2).
        { intros tid Ha. rewrite Est.
          destruct (is_alive_app_one tid w0 _ t Et Ha) as [Hold| ->];
            [destruct (Hnone tid Hold)|reflexivity]. }
        destruct (start_server env (inputs_port inputs) w0) as [[b|e] w2];
          injection Hrun as _ <-; exact Hnew.
    + rewrite (run_try_invalid env _ _ _ _ d w e1) in Hrun
        by (right; exists raw; split; assumption).
      injection Hrun as _ <-. exact Hw.
  - rewrite (run_try_invalid env _ _ _ _ d w e0) in Hrun by (left; exact HA).
    injection Hrun as _ <-. exact Hw.
Qed.

Lemma stop_server_stops_no_thread_aux (w : World) :
  reachable w ->
  threads (stop_server env w).2 = threads w
  ∧ is_running (stop_server env w).2 = is_running w.
Proof.
  intros H. destruct (reachable_keeps w H) as [Hflag _].
  destruct (stop_server_quiet_fields w Hflag) as (Et & _ & Est & _).
  split; [exact Et|]. unfold is_running, is_alive. rewrite Est, Et. reflexivity.
Qed.

(** X7. In every state the module can reach, the exit flag of no server
    object has been set and the global [server_instance] is still
    [None]: nothing in the module ever tells a server to exit. *)
Theorem exit_flag_is_never_set (w : World) :
  reachable w ->
  server_instance w = None
  ∧ Forall (fun s => should_exit s = false) (servers w).
Proof. intros H. exact (proj1 (reachable_keeps w H)). Qed.

(** X8. In every state the module can reach, [stop_server] ends no
    thread: the threads are afterwards as they were, and the server is
    running exactly if it was. *)
Theorem stop_server_stops_no_thread (w : World) :
  reachable w ->
  threads (stop_server env w).2 = threads w
  ∧ is_running (stop_server env w).2 = is_running w.
Proof. exact (stop_server_stops_no_thread_aux w). Qed.

(** X9. [run] and [stop_server] keep the invariant that only the thread
    recorded in [server_thread] may be alive: from a state with at most
    one live server thread, the recorded one, they lead to such a state. *)
Theorem run_keeps_single_instance (d : ModuleRun) (w : World) :
  single_instance w ->
  single_instance (run d w).2 ∧ single_instance (stop_server env w).2.
Proof.
  intros Hw. split; [|apply stop_server_keeps_single_instance; exact Hw].
  destruct (run_try d w) as [[r|e] w1] eqn:Hrun.
  - unfold RunPy.run. rewrite Hrun.
    exact (run_try_keeps_single_instance d w w1 _ Hrun Hw).
  - rewrite (run_handler env _ _ _ _ d w w1 e Hrun). cbn [snd].
    apply stop_server_keeps_single_instance.
    exact (run_try_keeps_single_instance d w w1 _ Hrun Hw).
Qed.

(** X10. [start_server] leaves every existing thread as it is and
    overwrites the global [server_thread] with the new thread; so when
    it is called while the recorded thread is alive, that thread stays
    alive and is no longer recorded anywhere. *)
Theorem start_server_orphans_recorded_thread (p : Z) (w : World) :
  (forall i t, threads w !! i = Some t ->
               threads (start_server env p w).2 !! i = Some t)
  ∧ server_thread (start_server env p w).2 = Some (length (threads w))
  ∧ (forall old, server_thread w = Some old -> is_alive old w = true ->
       is_alive old (start_server env p w).2 = true
       ∧ server_thread (start_server env p w).2 <> Some old).
Proof.
  destruct (start_server_fields p w) as (_ & Est & (t & Et & _) & _).
  assert (Hkeep : forall i t0, threads w !! i = Some t0 ->
                    threads (start_server env p w).2 !! i = Some t0).
  { intros i t0 Hi. rewrite Et. apply lookup_app_l_Some. exact Hi. }
  split; [exact Hkeep|]. split; [exact Est|].
  intros old _ Ha. unfold is_alive in Ha |- *.
  destruct (threads w !! old) as [t0|] eqn:Hold; [|discriminate Ha].
  rewrite (Hkeep old t0 Hold). split; [exact Ha|].
  rewrite Est. intros [= Heq].
  apply lookup_lt_Some in Hold. lia.
Qed.

(** X11. Every thread the module creates is a non-daemon thread, in
    every state it can reach. *)
Theorem threads_are_non_daemon (w : World) :
  reachable w -> Forall (fun t => daemon t = false) (threads w).
Proof. intros H. exact (proj2 (reachable_keeps w H)). Qed.

(** X12. [signal_handler] prints its line, clears [keep_running], calls
    [stop_server] and always ends in [sys.exit(0)]; in every state the
    module can reach it ends no thread, so a server that was running is
    still running when the exit is asked for. *)
Theorem signal_handler_exits_with_server_alive (m : Main) :
  reachable (world m) ->
  (signal_handler env m).1 = SystemExit 0
  ∧ keep_running (signal_handler env m).2 = false
  ∧ stdout (signal_handler env m).2
    = stdout m ++ [String newline "Shutting down server..."]
  ∧ world (signal_handler env m).2 = (stop_server env (world m)).2
  ∧ threads (world (signal_handler env m).2) = threads (world m)
  ∧ is_running (world (signal_handler env m).2) = is_running (world m).
Proof.
  intros H. destruct (stop_server_stops_no_thread_aux (world m) H) as [Et Er].
  unfold signal_handler, print. cbn [world stdout keep_running].
  pose proof (stop_server_returns env (world m)) as Hret.
  destruct (stop_server env (world m)) as [[[]|e] w'] eqn:Hs;
    [|discriminate Hret].
  cbn [fst snd world stdout keep_running] in *. auto 10.
Qed.

(** X13. In every state the module can reach, [run] on an invocation
    that fails a validation raises the validation's exception and
    changes nothing but the trace: no thread is created or ended, no
    server is created, and the server is running exactly if it was. *)
Theorem run_on_invalid_input_changes_nothing (d : ModuleRun) (w : World) (e : exn) :
  reachable w ->
  AgentRunInput d = Raise e
  ∨ (exists raw, AgentRunInput d = Ok raw ∧ InputSchema_new raw = Raise e) ->
  (run d w).1 = Raise e
  ∧ threads (run d w).2 = threads w
  ∧ servers (run d w).2 = servers w
  ∧ server_thread (run d w).2 = server_thread w
  ∧ is_running (run d w).2 = is_running w.
Proof.
  intros H Hbad. destruct (reachable_keeps w H) as [Hflag _].
  rewrite (run_handler env _ _ _ _ d w w e (run_try_invalid env _ _ _ _ d w e Hbad)).
  cbn [fst snd].
  set (w0 := emit (Log "error" ("Error in run function: " +:+ str_exn e)) w).
  assert (Hflag0 : exit_flag_unset w0) by exact Hflag.
  destruct (stop_server_quiet_fields w0 Hflag0) as (Et & Es & Est & _).
  split; [reflexivity|]. split; [exact Et|]. split; [exact Es|].
  split; [exact Est|]. unfold is_running, is_alive. rewrite Est, Et. reflexivity.
Qed.

End LifecycleInvariants.

(** Witnesses of the invariants, on the process that serves port 8000. *)

Section LifecycleInvariantWitnesses.

Import RunPy.

Local Abbreviation demo_reachable :=
  (reachable env_ok (option Z) (option Z) demo_AgentRunInput demo_InputSchema).
Local Abbreviation demo_run :=
  (run env_ok (option Z) (option Z) demo_AgentRunInput demo_InputSchema).
Local Abbreviation serving := ((start_server env_ok 8000 initial).2).

Lemma serving_reachable : demo_reachable serving.
Proof. apply reach_start_server, reach_initial. Defined.

Lemma exit_flag_is_never_set_witness :
  server_instance (stop_server env_ok serving).2 = None
  ∧ Forall (fun s => should_exit s = false)
      (servers (stop_server env_ok serving).2).
Proof.
  apply (exit_flag_is_never_set env_ok (option Z) (option Z)
           demo_AgentRunInput demo_InputSchema).
  apply reach_stop_server, serving_reachable.
Defined.

Lemma stop_server_stops_no_thread_witness :
  threads (stop_server env_ok serving).2 = threads serving
  ∧ is_running (stop_server env_ok serving).2 = is_running serving.
Proof.
  apply (stop_server_stops_no_thread env_ok (option Z) (option Z)
           demo_AgentRunInput demo_InputSchema).
  apply serving_reachable.
Defined.

Lemma run_keeps_single_instance_witness :
  single_instance (demo_run (Some 8001) initial).2
  ∧ single_instance (stop_server env_ok initial).2.
Proof.
  apply (run_keeps_single_instance env_ok (option Z) (option Z)
           demo_AgentRunInput demo_InputSchema (Some 8001) initial).
  intros tid H. vm_compute in H. discriminate H.
Defined.

Lemma start_server_orphans_recorded_thread_witness :
  is_alive 0 (start_server env_ok 8001 serving).2 = true
  ∧ server_thread (start_server env_ok 8001 serving).2 <> Some 0%nat.
Proof.
  apply (proj2 (proj2 (start_server_orphans_recorded_thread env_ok 8001 serving))
           0%nat); vm_compute; reflexivity.
Defined.

Lemma threads_are_non_daemon_witness :
  Forall (fun t => daemon t = false) (threads (demo_run (Some 8001) serving).2).
Proof.
  apply (threads_are_non_daemon env_ok (option Z) (option Z)
           demo_AgentRunInput demo_InputSchema).
  apply reach_run, serving_reachable.
Defined.

Lemma signal_handler_exits_with_server_alive_witness :
  (signal_handler env_ok (mkMain serving true [])).1 = SystemExit 0
  ∧ keep_running (signal_handler env_ok (mkMain serving true [])).2 = false
  ∧ is_running (world (signal_handler env_ok (mkMain serving true [])).2)
    = is_running serving.
Proof.
  destruct (signal_handler_exits_with_server_alive env_ok (option Z) (option Z)
              demo_AgentRunInput demo_InputSchema (mkMain serving true [])
              serving_reachable) as (Hexit & Hkeep & _ & _ & _ & Hrun).
  split; [exact Hexit|]. split; [exact Hkeep|exact Hrun].
Defined.

Lemma run_on_invalid_input_changes_nothing_witness :
  (demo_run None serving).1 = Raise (ValidationError "port: field required")
  ∧ threads (demo_run None serving).2 = threads serving
  ∧ is_running (demo_run None serving).2 = is_running serving.
Proof.
  destruct (run_on_invalid_input_changes_nothing env_ok (option Z) (option Z)
              demo_AgentRunInput demo_InputSchema None serving
              (ValidationError "port: field required") serving_reachable)
    as (Hraise & Hthreads & _ & _ & Hrun).
  - right. exists None. split; reflexivity.
  - split; [exact Hraise|]. split; [exact Hthreads|exact Hrun].
Defined.

End LifecycleInvariantWitnesses.

(** * [run] under an interrupt *)

Section InterruptedRun.

Import RunPy.

Variable env : Env.
Variable interrupted : nat -> bool.

Ltac eval_sig :=
  cbv beta iota zeta delta
    [start_server_sig time_sleep_sig sig_bind sig_ret sig_lift of_result
     start_server bind ret raise get modify lift
     Thread_new Thread_start time_sleep logger_info logger_error
     run_server update_thread update_server emit
     set_threads set_servers set_server_thread
     set_state set_daemon set_local_server_instance set_should_exit
     server_instance server_thread threads servers trace
     target_port daemon state local_server_instance
     default from_option id fmap option_fmap option_map fst snd].

(** [start_server] under an interrupt leaves the world [start_server]
    leaves; what differs is how the call ends. *)
Lemma start_server_sig_eq (p : Z) (w : World) :
  start_server_sig env interrupted p w =
  (if can_start env (length (threads w)) then
     if interrupted (length (threads w)) then KeyboardInterrupt
     else Returned true
   else Raised (RuntimeError "can't start new thread"),
   (start_server env p w).2).
Proof.
  destruct (can_start env (length (threads w))) eqn:Hc.
  - rewrite (start_server_started env p w Hc).
    destruct w as [si st ts ss tr]. eval_sig. cbn [threads] in Hc. rewrite Hc.
    rewrite !alter_snoc, lookup_snoc. eval_sig.
    destruct (bind_ok env (length ts) p); eval_sig;
      rewrite ?alter_snoc; eval_sig; rewrite <- !app_assoc;
      destruct (interrupted (length ts)); reflexivity.
  - rewrite (start_server_refused env p w Hc).
    destruct w as [si st ts ss tr]. eval_sig. cbn [threads] in Hc. rewrite Hc.
    rewrite alter_snoc. reflexivity.
Qed.

Section RunUnderInterrupt.

Variables ModuleRun RawInputs : Type.
Variable AgentRunInput : ModuleRun -> result RawInputs.
Variable InputSchema_new : RawInputs -> result InputSchema.

Local Abbreviation run_try_sig :=
  (RunPy.run_try_sig env interrupted ModuleRun RawInputs AgentRunInput
     InputSchema_new).
Local Abbreviation run_sig :=
  (RunPy.run_sig env interrupted ModuleRun RawInputs AgentRunInput
     InputSchema_new).
Local Abbreviation run :=
  (RunPy.run env ModuleRun RawInputs AgentRunInput InputSchema_new).
Local Abbreviation run_try :=
  (RunPy.run_try env ModuleRun RawInputs AgentRunInput InputSchema_new).

Lemma run_try_sig_invalid (d : ModuleRun) (w : World) (e : exn) :
  AgentRunInput d = Raise e
  ∨ (exists raw, AgentRunInput d = Ok raw ∧ InputSchema_new raw = Raise e) ->
  run_try_sig d w = (Raised e, w).
Proof.
  unfold RunPy.run_try_sig.
  intros [HA|(raw & HA & HI)];
    cbv beta iota zeta delta [sig_bind sig_lift lift of_result]; rewrite HA;
    [reflexivity|].
  cbv beta iota zeta delta [sig_bind sig_lift lift of_result]. rewrite HI.
  reflexivity.
Qed.

Lemma run_try_sig_parsed (d : ModuleRun) (raw : RawInputs) (inputs : InputSchema)
    (w : World) :
  AgentRunInput d = Ok raw -> InputSchema_new raw = Ok inputs ->
  run_try_sig d w =
  let w0 := emit (Log "info" ("Received input: " +:+ str_InputSchema inputs)) w in
  let port := inputs_port inputs in
  let success := mkRunResult "success"
                   ("MCP server started for this run on port " +:+ pretty port) in
  if is_running w then (Returned success, w0)
  else if can_start env (length (threads w)) then
         if interrupted (length (threads w))
         then (KeyboardInterrupt, (start_server env port w0).2)
         else (Returned success,
               emit (Log "info" "MCP server started for this run")
                 (start_server env port w0).2)
       else (Raised (RuntimeError "can't start new thread"),
             (start_server env port w0).2).
Proof.
  intros HA HI. unfold RunPy.run_try_sig.
  cbv beta iota zeta delta [sig_bind sig_lift lift of_result]. rewrite HA.
  cbv beta iota zeta delta [sig_bind sig_lift lift of_result]. rewrite HI.
  cbv beta iota zeta
    delta [sig_bind sig_lift sig_ret lift of_result get logger_info modify].
  change (is_running (emit ?e w)) with (is_running w).
  destruct (is_running w); [reflexivity|]. cbv beta iota delta [negb].
  rewrite start_server_sig_eq.
  change (threads (emit ?e w)) with (threads w).
  destruct (can_start env (length (threads w))); [|reflexivity].
  destruct (interrupted (length (threads w))); reflexivity.
Qed.

(** With no interrupt, [run_sig] is [run]. *)
Lemma run_sig_uninterrupted (d : ModuleRun) (w : World) :
  (forall tid, interrupted tid = false) ->
  run_sig d w = (of_result (run d w).1, (run d w).2).
Proof.
  intros Hnone.
  assert (Htry : run_try_sig d w = (of_result (run_try d w).1, (run_try d w).2)).
  { destruct (AgentRunInput d) as [raw|e0] eqn:HA.
    - destruct (InputSchema_new raw) as [inputs|e1] eqn:HI.
      + rewrite (run_try_sig_parsed d raw inputs w HA HI).
        rewrite (run_try_parsed env _ _ _ _ d raw inputs w HA HI). cbv zeta.
        destruct (is_running w); [reflexivity|].
        rewrite Hnone.
        change (threads (emit ?e w)) with (threads w).
        destruct (can_start env (length (threads w))) eqn:Hc.
        * rewrite start_server_started by exact Hc. reflexivity.
        * rewrite start_server_refused by exact Hc. reflexivity.
      + rewrite (run_try_sig_invalid d w e1)
          by (right; exists raw; split; assumption).
        rewrite (run_try_invalid env _ _ _ _ d w e1)
          by (right; exists raw; split; assumption).
        reflexivity.
    - rewrite (run_try_sig_invalid d w e0) by (left; exact HA).
      rewrite (run_try_invalid env _ _ _ _ d w e0) by (left; exact HA).
      reflexivity. }
  unfold RunPy.run_sig, RunPy.run. rewrite Htry.
  destruct (run_try d w) as [[r|e] w1]; cbn [fst snd of_result]; [reflexivity|].
  destruct ((logger_error _ ;;; stop_server env) w1) as [[u|e'] w2]; reflexivity.
Qed.

(** The handler of [run_sig]: as in [run], for what is an [Exception]. *)
Lemma run_sig_handler (d : ModuleRun) (w w1 : World) (e : exn) :
  run_try_sig d w = (Raised e, w1) ->
  run_sig d w =
  (Raised e,
   (stop_server env
      (emit (Log "error" ("Error in run function: " +:+ str_exn e)) w1)).2).
Proof.
  intros Htry. unfold RunPy.run_sig. rewrite Htry.
  unfold bind, logger_error, modify. cbv beta iota.
  pose proof (stop_server_returns env
                (emit (Log "error" ("Error in run function: " +:+ str_exn e)) w1))
    as Hs.
  destruct (stop_server env _) as [[[]|e'] w'']; [reflexivity|discriminate Hs].
Qed.

(** Where the [try] block raised an [Exception], no thread is alive
    that was not alive when [run] was entered: such an exception comes
    from a validation or from a thread that could not be started. *)
Lemma run_try_sig_raised_alive (d : ModuleRun) (w w1 : World) (e : exn) (i : nat) :
  run_try_sig d w = (Raised e, w1) ->
  is_alive i w1 = true -> is_alive i w = true.
Proof.
  destruct (AgentRunInput d) as [raw|e0] eqn:HA.
  - destruct (InputSchema_new raw) as [inputs|e1] eqn:HI.
    + rewrite (run_try_sig_parsed d raw inputs w HA HI). cbv zeta.
      destruct (is_running w); [discriminate|].
      destruct (can_start env (length (threads w))) eqn:Hc.
      * destruct (interrupted _); discriminate.
      * rewrite start_server_refused by exact Hc.
        intros [= <- <-]. cbn [threads emit snd].
        intros H. destruct w as [si st ts ss tr].
        destruct (is_alive_snoc _ _ _ _ _ _ _ si st ss tr H) as [H'|Hi];
          [exact H'|]. subst i.
        exfalso. revert H. unfold is_alive. cbn [threads].
        rewrite lookup_snoc. discriminate.
    + rewrite (run_try_sig_invalid d w e1)
        by (right; exists raw; split; assumption).
      intros [= <- <-]. auto.
  - rewrite (run_try_sig_invalid d w e0) by (left; exact HA).
    intros [= <- <-]. auto.
Qed.

(** Where the [try] block was interrupted, the thread of this call was
    started and the control thread was in its sleep. *)
Lemma run_try_sig_interrupted (d : ModuleRun) (w w1 : World) :
  run_try_sig d w = (KeyboardInterrupt, w1) ->
  exists raw inputs,
    AgentRunInput d = Ok raw ∧ InputSchema_new raw = Ok inputs
    ∧ is_running w = false
    ∧ can_start env (length (threads w)) = true
    ∧ w1 = (start_server env (inputs_port inputs)
              (emit (Log "info" ("Received input: " +:+ str_InputSchema inputs)) w)).2.
Proof.
  destruct (AgentRunInput d) as [raw|e0] eqn:HA.
  - destruct (InputSchema_new raw) as [inputs|e1] eqn:HI.
    + rewrite (run_try_sig_parsed d raw inputs w HA HI). cbv zeta.
      destruct (is_running w) eqn:Hr; [discriminate|].
      destruct (can_start env (length (threads w))) eqn:Hc; [|discriminate].
      destruct (interrupted _); [|discriminate].
      intros [= <-]. exists raw, inputs. auto.
    + rewrite (run_try_sig_invalid d w e1)
        by (right; exists raw; split; assumption).
      discriminate.
  - rewrite (run_try_sig_invalid d w e0) by (left; exact HA). discriminate.
Qed.

(** C4 (amended). When the [try] block of [run] raises an exception
    that is an instance of [Exception], [run] logs it, calls
    [stop_server] and then raises the same exception: a recorded thread
    that is alive is joined, once, for at most five seconds, and where
    none is alive the threads are left as they are.  Such an exception
    is raised only before a new thread is alive, so the failed call
    leaves no thread of its own alive.  An interrupt, which is no
    [Exception], passes the handler by: [run] propagates it without
    logging and without calling [stop_server], with the thread it
    started running whenever its listener bound the port. *)
Theorem run_stops_server_on_exception_only (d : ModuleRun) (w w1 : World) :
  (forall e, run_try_sig d w = (Raised e, w1) ->
     let logged := emit (Log "error" ("Error in run function: " +:+ str_exn e)) w1 in
     run_sig d w = (Raised e, (stop_server env logged).2)
     ∧ (forall tid, server_thread w1 = Some tid -> is_alive tid w1 = true ->
          exists pre,
            trace (run_sig d w).2
            = trace w1 ++ [Log "error" ("Error in run function: " +:+ str_exn e)]
                ++ pre ++ [Join tid 5; Log "info" "Server thread stopped"]
            ∧ forall t s, Join t s ∉ pre)
     ∧ (is_running w1 = false -> threads (run_sig d w).2 = threads w1)
     ∧ (forall i, is_alive i (run_sig d w).2 = true -> is_alive i w = true))
  ∧ (run_try_sig d w = (KeyboardInterrupt, w1) ->
     run_sig d w = (KeyboardInterrupt, w1)
     ∧ exists raw inputs,
         AgentRunInput d = Ok raw ∧ InputSchema_new raw = Ok inputs
         ∧ w1 = (start_server env (inputs_port inputs)
                   (emit (Log "info" ("Received input: " +:+ str_InputSchema inputs))
                      w)).2
         ∧ server_thread w1 = Some (length (threads w))
         ∧ is_running w1 = bind_ok env (length (threads w)) (inputs_port inputs)
         ∧ trace w1
           = trace w ++
             [Log "info" ("Received input: " +:+ str_InputSchema inputs);
              ThreadStart (length (threads w));
              Log "info" ("Starting MCP server on port "
                          +:+ pretty (inputs_port inputs));
              Log "info" ("Server thread started, available at http://localhost:"
                          +:+ pretty (inputs_port inputs) +:+ "/sse");
              Sleep 1]).
Proof.
  split.
  - intros e Htry. cbv zeta.
    rewrite (run_sig_handler d w w1 e Htry). cbn [snd].
    set (logged := emit (Log "error" ("Error in run function: " +:+ str_exn e)) w1).
    split; [reflexivity|]. split; [|split].
    + intros tid Ht Ha.
      assert (Hr : is_running logged = true).
      { unfold is_running. change (server_thread logged) with (server_thread w1).
        rewrite Ht. exact Ha. }
      destruct (stop_server_joined env tid logged Ht Hr) as [(pre & Htr & Hpre) _].
      exists pre. split.
      * rewrite Htr. unfold logged. cbn [trace emit].
        rewrite <- !app_assoc. reflexivity.
      * intros t s Hin. destruct Hpre as [->| ->].
        -- inversion Hin.
        -- apply list_elem_of_singleton in Hin. discriminate Hin.
    + intros Hr. exact (proj1 (stop_server_idle env logged Hr)).
    + intros i H%stop_server_alive.
      exact (run_try_sig_raised_alive d w w1 e i Htry H).
  - intros Htry. split; [unfold RunPy.run_sig; rewrite Htry; reflexivity|].
    destruct (run_try_sig_interrupted d w w1 Htry)
      as (raw & inputs & HA & HI & Hr & Hc & ->).
    exists raw, inputs. split; [exact HA|]. split; [exact HI|].
    split; [reflexivity|].
    rewrite start_server_started by exact Hc. cbv zeta.
    cbn [snd server_thread threads trace emit length].
    split; [reflexivity|]. split.
    + unfold is_running, is_alive. cbn [server_thread threads].
      rewrite lookup_snoc. cbn [state].
      destruct (bind_ok env _ _); reflexivity.
    + rewrite <- app_assoc. reflexivity.
Qed.

End RunUnderInterrupt.

End InterruptedRun.

Section InterruptedRuns.

Import RunPy.

(** C4, as stated, fails: when the interrupt arrives during the sleep
    that follows the start of the thread for port 8000, [run] raises
    [KeyboardInterrupt] to its caller without logging and without
    calling [stop_server], and the thread it started is left alive. *)
Lemma run_interrupted_leaves_thread_alive :
  let out := run_sig env_ok (fun _ => true) (option Z) (option Z)
               demo_AgentRunInput demo_InputSchema (Some 8000) initial in
  out.1 = KeyboardInterrupt
  ∧ is_running out.2 = true
  ∧ state <$> threads out.2 = [Alive]
  ∧ trace out.2
    = [Log "info" "Received input: port=8000";
       ThreadStart 0;
       Log "info" "Starting MCP server on port 8000";
       Log "info" "Server thread started, available at http://localhost:8000/sse";
       Sleep 1].
Proof. vm_compute. auto. Qed.

Lemma run_stops_server_on_exception_only_witness :
  let serving := (start_server env_ok 8000 initial).2 in
  let e := ValidationError "port: field required" in
  (exists pre,
      trace (run_sig env_ok (fun _ => false) (option Z) (option Z)
               demo_AgentRunInput demo_InputSchema None serving).2
      = trace serving ++ [Log "error" ("Error in run function: " +:+ str_exn e)]
          ++ pre ++ [Join 0 5; Log "info" "Server thread stopped"]
      ∧ forall t s, Join t s ∉ pre)
  ∧ run_sig env_ok (fun _ => true) (option Z) (option Z)
      demo_AgentRunInput demo_InputSchema (Some 8000) initial
    = (KeyboardInterrupt,
       (start_server env_ok 8000
          (emit (Log "info" "Received input: port=8000") initial)).2).
Proof.
  cbv zeta. split.
  - apply (proj1 (proj2 (proj1
             (run_stops_server_on_exception_only env_ok (fun _ => false)
                (option Z) (option Z) demo_AgentRunInput demo_InputSchema
                None (start_server env_ok 8000 initial).2
                (start_server env_ok 8000 initial).2)
             (ValidationError "port: field required") eq_refl)) 0%nat);
      vm_compute; reflexivity.
  - apply (proj1 (proj2
             (run_stops_server_on_exception_only env_ok (fun _ => true)
                (option Z) (option Z) demo_AgentRunInput demo_InputSchema
                (Some 8000) initial
                (start_server env_ok 8000
                   (emit (Log "info" "Received input: port=8000") initial)).2)
             ltac:(vm_compute; reflexivity))).
Defined.

End InterruptedRuns.
